(** * webborer: settings, HTML link worker, mangler and work queue

    A shallow embedding of the Go packages [settings] and [worker] of
    webborer, together with the pieces of the Go standard library they call.

    Go strings are byte sequences: they are modelled as [string], whose
    characters ([ascii]) are the 8-bit bytes.  Go's [int] and [int64] are
    modelled as [Z]; a [time.Duration] is its number of nanoseconds. *)

From Stdlib Require Import ZArith Ascii String DecimalString DecimalPos Lia.
From stdpp Require Import base option list strings gmap.

(* set_solver clears hypotheses that may be gone already *)
#[local] Set Warnings "-clear-no-such-hyp".

Local Open Scope Z_scope.

(** ** Go standard library: bytes, [strings], [strconv], [net/textproto] *)

(** The pieces of the standard library that depend on the Unicode tables are
    taken as an interface: [strings.ToLower] and [strings.TrimSpace] are
    written out below for strings made of ASCII bytes only, and defer to these
    two functions for a string that holds a byte >= 0x80. *)
Class Unicode := {
  (* strings.Map(unicode.ToLower, s), for s with a non-ASCII byte *)
  unicode_ToLower : string → string;
  (* strings.TrimFunc(s, unicode.IsSpace), for s with a non-ASCII byte *)
  unicode_TrimSpace : string → string
}.

(** What the program reads from its platform and from package [time]. *)
Class Platform := {
  (* runtime.NumCPU() *)
  NumCPU : Z;
  (* strconv.IntSize: the width of int, 32 or 64 *)
  IntSize : Z;
  (* time.Duration.String *)
  Duration_String : Z → string;
  (* time.ParseDuration; an error is given by its message *)
  time_ParseDuration : string → Z + string
}.

Definition byte_val (c : ascii) : N := N_of_ascii c.

(* utf8.RuneSelf: bytes below it are single-byte runes *)
Definition RuneSelf : N := 128%N.

Definition isUpperByte (c : ascii) : bool :=
  ((65 <=? byte_val c) && (byte_val c <=? 90))%N.

Definition isLowerByte (c : ascii) : bool :=
  ((97 <=? byte_val c) && (byte_val c <=? 122))%N.

Definition isDigitByte (c : ascii) : bool :=
  ((48 <=? byte_val c) && (byte_val c <=? 57))%N.

Definition lowerByte (c : ascii) : ascii :=
  if isUpperByte c then ascii_of_N (byte_val c + 32) else c.

Definition upperByte (c : ascii) : ascii :=
  if isLowerByte c then ascii_of_N (byte_val c - 32) else c.

Fixpoint isASCII (s : string) : bool :=
  match s with
  | EmptyString => true
  | String c s' => (byte_val c <? RuneSelf)%N && isASCII s'
  end.

Fixpoint mapBytes (f : ascii → ascii) (s : string) : string :=
  match s with
  | EmptyString => EmptyString
  | String c s' => String (f c) (mapBytes f s')
  end.

(* strings.asciiSpace: \t \n \v \f \r and space *)
Definition asciiSpace (c : ascii) : bool :=
  match byte_val c with
  | 9%N | 10%N | 11%N | 12%N | 13%N | 32%N => true
  | _ => false
  end.

Fixpoint trimLeftSpace (s : string) : string :=
  match s with
  | EmptyString => EmptyString
  | String c s' => if asciiSpace c then trimLeftSpace s' else s
  end.

Fixpoint trimRightSpace (s : string) : string :=
  match s with
  | EmptyString => EmptyString
  | String c s' =>
      match trimRightSpace s' with
      | EmptyString => if asciiSpace c then EmptyString else String c EmptyString
      | t => String c t
      end
  end.

(* strings.Split(s, sep) for a one-byte separator: never an empty list *)
Fixpoint splitByte (sep : ascii) (s : string) : list string :=
  match s with
  | EmptyString => [EmptyString]
  | String c s' =>
      if decide (c = sep) then EmptyString :: splitByte sep s'
      else match splitByte sep s' with
           | h :: t => String c h :: t
           | [] => [String c EmptyString]
           end
  end.

(* strings.Split(s, ",") *)
Definition strings_Split_comma (s : string) : list string :=
  splitByte ","%char s.

(* strings.Join *)
Definition strings_Join (elems : list string) (sep : string) : string :=
  String.concat sep elems.

(* strings.Contains(s, substr) *)
Fixpoint strings_Contains (s substr : string) : bool :=
  String.prefix substr s ||
  match s with
  | EmptyString => false
  | String _ s' => strings_Contains s' substr
  end.

Section UnicodeStrings.
Context `{Unicode}.

(* strings.ToLower *)
Definition strings_ToLower (s : string) : string :=
  if isASCII s then mapBytes lowerByte s else unicode_ToLower s.

(* strings.TrimSpace *)
Definition strings_TrimSpace (s : string) : string :=
  if isASCII s then trimRightSpace (trimLeftSpace s) else unicode_TrimSpace s.

End UnicodeStrings.

(** [strconv.Atoi]: an optional sign, then one or more decimal digits, and the
    value must fit an [int].  The caller only tests whether an error came
    back, so a failure is [None]. *)
Fixpoint parseDigits (acc : Z) (s : string) : option Z :=
  match s with
  | EmptyString => Some acc
  | String c s' =>
      if isDigitByte c
      then parseDigits (10 * acc + (Z.of_N (byte_val c) - 48)) s'
      else None
  end.

Definition parseUint (s : string) : option Z :=
  match s with
  | EmptyString => None
  | _ => parseDigits 0 s
  end.

Section Strconv.
Context `{Platform}.

Definition strconv_Atoi (s : string) : option Z :=
  match s with
  | EmptyString => None
  | String c s' =>
      let neg := bool_decide (c = "-"%char) in
      let digits := if bool_decide (c = "+"%char) || neg then s' else s in
      un ← parseUint digits;
      let cutoff := 2 ^ (IntSize - 1) in
      if neg then (if cutoff <? un then None else Some (- un))
      else (if cutoff <=? un then None else Some un)
  end.

(* arithmetic on int wraps around *)
Definition wrapInt (z : Z) : Z :=
  (z + 2 ^ (IntSize - 1)) mod 2 ^ IntSize - 2 ^ (IntSize - 1).

End Strconv.

(* strconv.Itoa *)
Definition strconv_Itoa (z : Z) : string := NilZero.string_of_int (Z.to_int z).

(* strconv.FormatBool *)
Definition strconv_FormatBool (b : bool) : string :=
  if b then "true" else "false".

(** [textproto.CanonicalMIMEHeaderKey]: a key made of header-field bytes gets
    its first letter and every letter after a hyphen in upper case and the
    rest in lower case; any other key is returned as it is. *)
Definition validHeaderFieldByte (c : ascii) : bool :=
  isUpperByte c || isLowerByte c || isDigitByte c ||
  bool_decide (c ∈ ["!"; "#"; "$"; "%"; "&"; "'"; "*"; "+"; "-"; "."; "^"; "_";
                    "`"; "|"; "~"]%char).

Fixpoint allBytes (p : ascii → bool) (s : string) : bool :=
  match s with
  | EmptyString => true
  | String c s' => p c && allBytes p s'
  end.

Fixpoint canonicalBytes (upper : bool) (s : string) : string :=
  match s with
  | EmptyString => EmptyString
  | String c s' =>
      let c' := if upper then upperByte c else lowerByte c in
      String c' (canonicalBytes (bool_decide (c' = "-"%char)) s')
  end.

Definition CanonicalMIMEHeaderKey (s : string) : string :=
  if allBytes validHeaderFieldByte s then canonicalBytes true s else s.

(* http.Header is a map[string][]string *)
Definition Header_Get (h : gmap string (list string)) (key : string) : string :=
  match h !! CanonicalMIMEHeaderKey key with
  | Some (v :: _) => v
  | _ => EmptyString
  end.

(** ** Go standard library: [net/url], [golang.org/x/net/html] *)

(* url.URL *)
Record URL := {
  Scheme : string;
  Opaque : string;
  User : option (string * option string);
  Host : string;
  Path : string;
  RawPath : string;
  RawQuery : string;
  Fragment : string
}.

Definition set_Path (p : string) (u : URL) : URL :=
  {| Scheme := Scheme u; Opaque := Opaque u; User := User u; Host := Host u;
     Path := p; RawPath := RawPath u; RawQuery := RawQuery u;
     Fragment := Fragment u |}.

(* Go's error values, by their message *)
Definition error := string.

Class NetURL := {
  (* url.Parse *)
  url_Parse : string → URL + error;
  (* the method String of a url.URL *)
  URL_String : URL → string;
  (* the method ResolveReference of a url.URL *)
  ResolveReference : URL → URL → URL
}.

(* html.NodeType *)
Inductive NodeType :=
  ErrorNode | TextNode | DocumentNode | ElementNode | CommentNode | DoctypeNode.

Global Instance NodeType_eq_dec : EqDecision NodeType.
Proof. solve_decision. Defined.

(* html.Attribute *)
Record Attribute := { Namespace : string; Key : string; Val : string }.

(* html.Node: the FirstChild/NextSibling chain is the list of children *)
Local Unset Elimination Schemes.
Inductive Node := mkNode {
  Type_ : NodeType;
  Data : string;
  Attr : list Attribute;
  children : list Node
}.
Local Set Elimination Schemes.

Class HTMLParser := {
  (* io.Reader, as far as html.Parse reads it *)
  Reader : Type;
  (* html.Parse *)
  html_Parse : Reader → Node + error
}.

(** ** Effects: panics, state and the log *)

Inductive outcome (A : Type) :=
| Returned (a : A)
| Panicked (msg : string).
Global Arguments Returned {A} a.
Global Arguments Panicked {A} msg.

(** A Go function that reads and writes the state [St] and either returns or
    panics. *)
Definition GoM (St A : Type) : Type := St → outcome (A * St).

Global Instance GoM_ret St : MRet (GoM St) := λ A a st, Returned (a, st).

Global Instance GoM_bind St : MBind (GoM St) := λ A B f m st,
  match m st with
  | Returned (a, st') => f a st'
  | Panicked msg => Panicked msg
  end.

Definition panic {St A} (msg : string) : GoM St A := λ _, Panicked msg.

Definition modify {St} (f : St → St) : GoM St unit := λ st, Returned ((), f st).

Definition gets {St A} (f : St → A) : GoM St A := λ st, Returned (f st, st).

(* the levels of package logging that the program uses *)
Inductive LogLevel := LogDebug | LogInfo.

(** What the program sends out, in the order it does. *)
Inductive Event :=
| Logged (lvl : LogLevel) (msg : string)
| StderrWrite (s : string)
| FlagPrintDefaults.

Class Traced (St : Type) := emit : Event → St → St.

(** Modelled from the spec: [logging.Logf] of package logging, which is not
    among the sources.  The core "emits leveled diagnostic messages through an
    injected logging sink": a call hands the level and the formatted message
    to the sink. *)
Definition Logf `{Traced St} (lvl : LogLevel) (msg : string) : GoM St unit :=
  modify (emit (Logged lvl msg)).

(** A pointer into the memory [M]: what it reads and what an assignment
    through it does.  A nil pointer is [None]. *)
Record Ptr (M A : Type) := {
  deref : M → A;
  assign : A → M → M
}.
Global Arguments deref {M A} _ _.
Global Arguments assign {M A} _ _ _.

(** ** Package settings *)
Module settings.

(* ScanSettings *)
Record ScanSettings := {
  BaseURLs : list string;
  Threads : Z;
  Workers : Z;
  ExcludePaths : list string;
  Proxies : list string;
  ParseHTML : bool;
  SleepTime : Z;
  LogfilePath : string;
  LogLevel : string;
  WordlistPath : string;
  Extensions : list string;
  Mangle : bool;
  QueueSize : Z;
  Timeout : Z;
  OutputFormat : string;
  OutputPath : string;
  UserAgent : string;
  IncludeRedirects : bool;
  RobotsMode : Z;
  AllowHTTPSUpgrade : bool;
  SpiderCodes : list Z;
  DebugCPUProf : bool;
  configPath : string;
  flagsSet : bool
}.

Definition set_BaseURLs (v : list string) (s : ScanSettings) : ScanSettings :=
  {| BaseURLs := v; Threads := Threads s; Workers := Workers s;
     ExcludePaths := ExcludePaths s; Proxies := Proxies s;
     ParseHTML := ParseHTML s; SleepTime := SleepTime s;
     LogfilePath := LogfilePath s; LogLevel := LogLevel s;
     WordlistPath := WordlistPath s; Extensions := Extensions s;
     Mangle := Mangle s; QueueSize := QueueSize s; Timeout := Timeout s;
     OutputFormat := OutputFormat s; OutputPath := OutputPath s;
     UserAgent := UserAgent s; IncludeRedirects := IncludeRedirects s;
     RobotsMode := RobotsMode s; AllowHTTPSUpgrade := AllowHTTPSUpgrade s;
     SpiderCodes := SpiderCodes s; DebugCPUProf := DebugCPUProf s;
     configPath := configPath s; flagsSet := flagsSet s |}.

Definition set_Threads (v : Z) (s : ScanSettings) : ScanSettings :=
  {| BaseURLs := BaseURLs s; Threads := v; Workers := Workers s;
     ExcludePaths := ExcludePaths s; Proxies := Proxies s;
     ParseHTML := ParseHTML s; SleepTime := SleepTime s;
     LogfilePath := LogfilePath s; LogLevel := LogLevel s;
     WordlistPath := WordlistPath s; Extensions := Extensions s;
     Mangle := Mangle s; QueueSize := QueueSize s; Timeout := Timeout s;
     OutputFormat := OutputFormat s; OutputPath := OutputPath s;
     UserAgent := UserAgent s; IncludeRedirects := IncludeRedirects s;
     RobotsMode := RobotsMode s; AllowHTTPSUpgrade := AllowHTTPSUpgrade s;
     SpiderCodes := SpiderCodes s; DebugCPUProf := DebugCPUProf s;
     configPath := configPath s; flagsSet := flagsSet s |}.

Definition set_Workers (v : Z) (s : ScanSettings) : ScanSettings :=
  {| BaseURLs := BaseURLs s; Threads := Threads s; Workers := v;
     ExcludePaths := ExcludePaths s; Proxies := Proxies s;
     ParseHTML := ParseHTML s; SleepTime := SleepTime s;
     LogfilePath := LogfilePath s; LogLevel := LogLevel s;
     WordlistPath := WordlistPath s; Extensions := Extensions s;
     Mangle := Mangle s; QueueSize := QueueSize s; Timeout := Timeout s;
     OutputFormat := OutputFormat s; OutputPath := OutputPath s;
     UserAgent := UserAgent s; IncludeRedirects := IncludeRedirects s;
     RobotsMode := RobotsMode s; AllowHTTPSUpgrade := AllowHTTPSUpgrade s;
     SpiderCodes := SpiderCodes s; DebugCPUProf := DebugCPUProf s;
     configPath := configPath s; flagsSet := flagsSet s |}.

Definition set_ExcludePaths (v : list string) (s : ScanSettings) : ScanSettings :=
  {| BaseURLs := BaseURLs s; Threads := Threads s; Workers := Workers s;
     ExcludePaths := v; Proxies := Proxies s; ParseHTML := ParseHTML s;
     SleepTime := SleepTime s; LogfilePath := LogfilePath s;
     LogLevel := LogLevel s; WordlistPath := WordlistPath s;
     Extensions := Extensions s; Mangle := Mangle s;
     QueueSize := QueueSize s; Timeout := Timeout s;
     OutputFormat := OutputFormat s; OutputPath := OutputPath s;
     UserAgent := UserAgent s; IncludeRedirects := IncludeRedirects s;
     RobotsMode := RobotsMode s; AllowHTTPSUpgrade := AllowHTTPSUpgrade s;
     SpiderCodes := SpiderCodes s; DebugCPUProf := DebugCPUProf s;
     configPath := configPath s; flagsSet := flagsSet s |}.

Definition set_Proxies (v : list string) (s : ScanSettings) : ScanSettings :=
  {| BaseURLs := BaseURLs s; Threads := Threads s; Workers := Workers s;
     ExcludePaths := ExcludePaths s; Proxies := v; ParseHTML := ParseHTML s;
     SleepTime := SleepTime s; LogfilePath := LogfilePath s;
     LogLevel := LogLevel s; WordlistPath := WordlistPath s;
     Extensions := Extensions s; Mangle := Mangle s;
     QueueSize := QueueSize s; Timeout := Timeout s;
     OutputFormat := OutputFormat s; OutputPath := OutputPath s;
     UserAgent := UserAgent s; IncludeRedirects := IncludeRedirects s;
     RobotsMode := RobotsMode s; AllowHTTPSUpgrade := AllowHTTPSUpgrade s;
     SpiderCodes := SpiderCodes s; DebugCPUProf := DebugCPUProf s;
     configPath := configPath s; flagsSet := flagsSet s |}.

Definition set_ParseHTML (v : bool) (s : ScanSettings) : ScanSettings :=
  {| BaseURLs := BaseURLs s; Threads := Threads s; Workers := Workers s;
     ExcludePaths := ExcludePaths s; Proxies := Proxies s; ParseHTML := v;
     SleepTime := SleepTime s; LogfilePath := LogfilePath s;
     LogLevel := LogLevel s; WordlistPath := WordlistPath s;
     Extensions := Extensions s; Mangle := Mangle s;
     QueueSize := QueueSize s; Timeout := Timeout s;
     OutputFormat := OutputFormat s; OutputPath := OutputPath s;
     UserAgent := UserAgent s; IncludeRedirects := IncludeRedirects s;
     RobotsMode := RobotsMode s; AllowHTTPSUpgrade := AllowHTTPSUpgrade s;
     SpiderCodes := SpiderCodes s; DebugCPUProf := DebugCPUProf s;
     configPath := configPath s; flagsSet := flagsSet s |}.

Definition set_SleepTime (v : Z) (s : ScanSettings) : ScanSettings :=
  {| BaseURLs := BaseURLs s; Threads := Threads s; Workers := Workers s;
     ExcludePaths := ExcludePaths s; Proxies := Proxies s;
     ParseHTML := ParseHTML s; SleepTime := v; LogfilePath := LogfilePath s;
     LogLevel := LogLevel s; WordlistPath := WordlistPath s;
     Extensions := Extensions s; Mangle := Mangle s;
     QueueSize := QueueSize s; Timeout := Timeout s;
     OutputFormat := OutputFormat s; OutputPath := OutputPath s;
     UserAgent := UserAgent s; IncludeRedirects := IncludeRedirects s;
     RobotsMode := RobotsMode s; AllowHTTPSUpgrade := AllowHTTPSUpgrade s;
     SpiderCodes := SpiderCodes s; DebugCPUProf := DebugCPUProf s;
     configPath := configPath s; flagsSet := flagsSet s |}.

Definition set_LogfilePath (v : string) (s : ScanSettings) : ScanSettings :=
  {| BaseURLs := BaseURLs s; Threads := Threads s; Workers := Workers s;
     ExcludePaths := ExcludePaths s; Proxies := Proxies s;
     ParseHTML := ParseHTML s; SleepTime := SleepTime s; LogfilePath := v;
     LogLevel := LogLevel s; WordlistPath := WordlistPath s;
     Extensions := Extensions s; Mangle := Mangle s;
     QueueSize := QueueSize s; Timeout := Timeout s;
     OutputFormat := OutputFormat s; OutputPath := OutputPath s;
     UserAgent := UserAgent s; IncludeRedirects := IncludeRedirects s;
     RobotsMode := RobotsMode s; AllowHTTPSUpgrade := AllowHTTPSUpgrade s;
     SpiderCodes := SpiderCodes s; DebugCPUProf := DebugCPUProf s;
     configPath := configPath s; flagsSet := flagsSet s |}.

Definition set_LogLevel (v : string) (s : ScanSettings) : ScanSettings :=
  {| BaseURLs := BaseURLs s; Threads := Threads s; Workers := Workers s;
     ExcludePaths := ExcludePaths s; Proxies := Proxies s;
     ParseHTML := ParseHTML s; SleepTime := SleepTime s;
     LogfilePath := LogfilePath s; LogLevel := v;
     WordlistPath := WordlistPath s; Extensions := Extensions s;
     Mangle := Mangle s; QueueSize := QueueSize s; Timeout := Timeout s;
     OutputFormat := OutputFormat s; OutputPath := OutputPath s;
     UserAgent := UserAgent s; IncludeRedirects := IncludeRedirects s;
     RobotsMode := RobotsMode s; AllowHTTPSUpgrade := AllowHTTPSUpgrade s;
     SpiderCodes := SpiderCodes s; DebugCPUProf := DebugCPUProf s;
     configPath := configPath s; flagsSet := flagsSet s |}.

Definition set_WordlistPath (v : string) (s : ScanSettings) : ScanSettings :=
  {| BaseURLs := BaseURLs s; Threads := Threads s; Workers := Workers s;
     ExcludePaths := ExcludePaths s; Proxies := Proxies s;
     ParseHTML := ParseHTML s; SleepTime := SleepTime s;
     LogfilePath := LogfilePath s; LogLevel := LogLevel s; WordlistPath := v;
     Extensions := Extensions s; Mangle := Mangle s;
     QueueSize := QueueSize s; Timeout := Timeout s;
     OutputFormat := OutputFormat s; OutputPath := OutputPath s;
     UserAgent := UserAgent s; IncludeRedirects := IncludeRedirects s;
     RobotsMode := RobotsMode s; AllowHTTPSUpgrade := AllowHTTPSUpgrade s;
     SpiderCodes := SpiderCodes s; DebugCPUProf := DebugCPUProf s;
     configPath := configPath s; flagsSet := flagsSet s |}.

Definition set_Extensions (v : list string) (s : ScanSettings) : ScanSettings :=
  {| BaseURLs := BaseURLs s; Threads := Threads s; Workers := Workers s;
     ExcludePaths := ExcludePaths s; Proxies := Proxies s;
     ParseHTML := ParseHTML s; SleepTime := SleepTime s;
     LogfilePath := LogfilePath s; LogLevel := LogLevel s;
     WordlistPath := WordlistPath s; Extensions := v; Mangle := Mangle s;
     QueueSize := QueueSize s; Timeout := Timeout s;
     OutputFormat := OutputFormat s; OutputPath := OutputPath s;
     UserAgent := UserAgent s; IncludeRedirects := IncludeRedirects s;
     RobotsMode := RobotsMode s; AllowHTTPSUpgrade := AllowHTTPSUpgrade s;
     SpiderCodes := SpiderCodes s; DebugCPUProf := DebugCPUProf s;
     configPath := configPath s; flagsSet := flagsSet s |}.

Definition set_Mangle (v : bool) (s : ScanSettings) : ScanSettings :=
  {| BaseURLs := BaseURLs s; Threads := Threads s; Workers := Workers s;
     ExcludePaths := ExcludePaths s; Proxies := Proxies s;
     ParseHTML := ParseHTML s; SleepTime := SleepTime s;
     LogfilePath := LogfilePath s; LogLevel := LogLevel s;
     WordlistPath := WordlistPath s; Extensions := Extensions s; Mangle := v;
     QueueSize := QueueSize s; Timeout := Timeout s;
     OutputFormat := OutputFormat s; OutputPath := OutputPath s;
     UserAgent := UserAgent s; IncludeRedirects := IncludeRedirects s;
     RobotsMode := RobotsMode s; AllowHTTPSUpgrade := AllowHTTPSUpgrade s;
     SpiderCodes := SpiderCodes s; DebugCPUProf := DebugCPUProf s;
     configPath := configPath s; flagsSet := flagsSet s |}.

Definition set_Timeout (v : Z) (s : ScanSettings) : ScanSettings :=
  {| BaseURLs := BaseURLs s; Threads := Threads s; Workers := Workers s;
     ExcludePaths := ExcludePaths s; Proxies := Proxies s;
     ParseHTML := ParseHTML s; SleepTime := SleepTime s;
     LogfilePath := LogfilePath s; LogLevel := LogLevel s;
     WordlistPath := WordlistPath s; Extensions := Extensions s;
     Mangle := Mangle s; QueueSize := QueueSize s; Timeout := v;
     OutputFormat := OutputFormat s; OutputPath := OutputPath s;
     UserAgent := UserAgent s; IncludeRedirects := IncludeRedirects s;
     RobotsMode := RobotsMode s; AllowHTTPSUpgrade := AllowHTTPSUpgrade s;
     SpiderCodes := SpiderCodes s; DebugCPUProf := DebugCPUProf s;
     configPath := configPath s; flagsSet := flagsSet s |}.

Definition set_OutputFormat (v : string) (s : ScanSettings) : ScanSettings :=
  {| BaseURLs := BaseURLs s; Threads := Threads s; Workers := Workers s;
     ExcludePaths := ExcludePaths s; Proxies := Proxies s;
     ParseHTML := ParseHTML s; SleepTime := SleepTime s;
     LogfilePath := LogfilePath s; LogLevel := LogLevel s;
     WordlistPath := WordlistPath s; Extensions := Extensions s;
     Mangle := Mangle s; QueueSize := QueueSize s; Timeout := Timeout s;
     OutputFormat := v; OutputPath := OutputPath s; UserAgent := UserAgent s;
     IncludeRedirects := IncludeRedirects s; RobotsMode := RobotsMode s;
     AllowHTTPSUpgrade := AllowHTTPSUpgrade s; SpiderCodes := SpiderCodes s;
     DebugCPUProf := DebugCPUProf s; configPath := configPath s;
     flagsSet := flagsSet s |}.

Definition set_OutputPath (v : string) (s : ScanSettings) : ScanSettings :=
  {| BaseURLs := BaseURLs s; Threads := Threads s; Workers := Workers s;
     ExcludePaths := ExcludePaths s; Proxies := Proxies s;
     ParseHTML := ParseHTML s; SleepTime := SleepTime s;
     LogfilePath := LogfilePath s; LogLevel := LogLevel s;
     WordlistPath := WordlistPath s; Extensions := Extensions s;
     Mangle := Mangle s; QueueSize := QueueSize s; Timeout := Timeout s;
     OutputFormat := OutputFormat s; OutputPath := v;
     UserAgent := UserAgent s; IncludeRedirects := IncludeRedirects s;
     RobotsMode := RobotsMode s; AllowHTTPSUpgrade := AllowHTTPSUpgrade s;
     SpiderCodes := SpiderCodes s; DebugCPUProf := DebugCPUProf s;
     configPath := configPath s; flagsSet := flagsSet s |}.

Definition set_UserAgent (v : string) (s : ScanSettings) : ScanSettings :=
  {| BaseURLs := BaseURLs s; Threads := Threads s; Workers := Workers s;
     ExcludePaths := ExcludePaths s; Proxies := Proxies s;
     ParseHTML := ParseHTML s; SleepTime := SleepTime s;
     LogfilePath := LogfilePath s; LogLevel := LogLevel s;
     WordlistPath := WordlistPath s; Extensions := Extensions s;
     Mangle := Mangle s; QueueSize := QueueSize s; Timeout := Timeout s;
     OutputFormat := OutputFormat s; OutputPath := OutputPath s;
     UserAgent := v; IncludeRedirects := IncludeRedirects s;
     RobotsMode := RobotsMode s; AllowHTTPSUpgrade := AllowHTTPSUpgrade s;
     SpiderCodes := SpiderCodes s; DebugCPUProf := DebugCPUProf s;
     configPath := configPath s; flagsSet := flagsSet s |}.

Definition set_IncludeRedirects (v : bool) (s : ScanSettings) : ScanSettings :=
  {| BaseURLs := BaseURLs s; Threads := Threads s; Workers := Workers s;
     ExcludePaths := ExcludePaths s; Proxies := Proxies s;
     ParseHTML := ParseHTML s; SleepTime := SleepTime s;
     LogfilePath := LogfilePath s; LogLevel := LogLevel s;
     WordlistPath := WordlistPath s; Extensions := Extensions s;
     Mangle := Mangle s; QueueSize := QueueSize s; Timeout := Timeout s;
     OutputFormat := OutputFormat s; OutputPath := OutputPath s;
     UserAgent := UserAgent s; IncludeRedirects := v;
     RobotsMode := RobotsMode s; AllowHTTPSUpgrade := AllowHTTPSUpgrade s;
     SpiderCodes := SpiderCodes s; DebugCPUProf := DebugCPUProf s;
     configPath := configPath s; flagsSet := flagsSet s |}.

Definition set_RobotsMode (v : Z) (s : ScanSettings) : ScanSettings :=
  {| BaseURLs := BaseURLs s; Threads := Threads s; Workers := Workers s;
     ExcludePaths := ExcludePaths s; Proxies := Proxies s;
     ParseHTML := ParseHTML s; SleepTime := SleepTime s;
     LogfilePath := LogfilePath s; LogLevel := LogLevel s;
     WordlistPath := WordlistPath s; Extensions := Extensions s;
     Mangle := Mangle s; QueueSize := QueueSize s; Timeout := Timeout s;
     OutputFormat := OutputFormat s; OutputPath := OutputPath s;
     UserAgent := UserAgent s; IncludeRedirects := IncludeRedirects s;
     RobotsMode := v; AllowHTTPSUpgrade := AllowHTTPSUpgrade s;
     SpiderCodes := SpiderCodes s; DebugCPUProf := DebugCPUProf s;
     configPath := configPath s; flagsSet := flagsSet s |}.

Definition set_AllowHTTPSUpgrade (v : bool) (s : ScanSettings) : ScanSettings :=
  {| BaseURLs := BaseURLs s; Threads := Threads s; Workers := Workers s;
     ExcludePaths := ExcludePaths s; Proxies := Proxies s;
     ParseHTML := ParseHTML s; SleepTime := SleepTime s;
     LogfilePath := LogfilePath s; LogLevel := LogLevel s;
     WordlistPath := WordlistPath s; Extensions := Extensions s;
     Mangle := Mangle s; QueueSize := QueueSize s; Timeout := Timeout s;
     OutputFormat := OutputFormat s; OutputPath := OutputPath s;
     UserAgent := UserAgent s; IncludeRedirects := IncludeRedirects s;
     RobotsMode := RobotsMode s; AllowHTTPSUpgrade := v;
     SpiderCodes := SpiderCodes s; DebugCPUProf := DebugCPUProf s;
     configPath := configPath s; flagsSet := flagsSet s |}.

Definition set_SpiderCodes (v : list Z) (s : ScanSettings) : ScanSettings :=
  {| BaseURLs := BaseURLs s; Threads := Threads s; Workers := Workers s;
     ExcludePaths := ExcludePaths s; Proxies := Proxies s;
     ParseHTML := ParseHTML s; SleepTime := SleepTime s;
     LogfilePath := LogfilePath s; LogLevel := LogLevel s;
     WordlistPath := WordlistPath s; Extensions := Extensions s;
     Mangle := Mangle s; QueueSize := QueueSize s; Timeout := Timeout s;
     OutputFormat := OutputFormat s; OutputPath := OutputPath s;
     UserAgent := UserAgent s; IncludeRedirects := IncludeRedirects s;
     RobotsMode := RobotsMode s; AllowHTTPSUpgrade := AllowHTTPSUpgrade s;
     SpiderCodes := v; DebugCPUProf := DebugCPUProf s;
     configPath := configPath s; flagsSet := flagsSet s |}.

Definition set_DebugCPUProf (v : bool) (s : ScanSettings) : ScanSettings :=
  {| BaseURLs := BaseURLs s; Threads := Threads s; Workers := Workers s;
     ExcludePaths := ExcludePaths s; Proxies := Proxies s;
     ParseHTML := ParseHTML s; SleepTime := SleepTime s;
     LogfilePath := LogfilePath s; LogLevel := LogLevel s;
     WordlistPath := WordlistPath s; Extensions := Extensions s;
     Mangle := Mangle s; QueueSize := QueueSize s; Timeout := Timeout s;
     OutputFormat := OutputFormat s; OutputPath := OutputPath s;
     UserAgent := UserAgent s; IncludeRedirects := IncludeRedirects s;
     RobotsMode := RobotsMode s; AllowHTTPSUpgrade := AllowHTTPSUpgrade s;
     SpiderCodes := SpiderCodes s; DebugCPUProf := v;
     configPath := configPath s; flagsSet := flagsSet s |}.

Definition set_configPath (v : string) (s : ScanSettings) : ScanSettings :=
  {| BaseURLs := BaseURLs s; Threads := Threads s; Workers := Workers s;
     ExcludePaths := ExcludePaths s; Proxies := Proxies s;
     ParseHTML := ParseHTML s; SleepTime := SleepTime s;
     LogfilePath := LogfilePath s; LogLevel := LogLevel s;
     WordlistPath := WordlistPath s; Extensions := Extensions s;
     Mangle := Mangle s; QueueSize := QueueSize s; Timeout := Timeout s;
     OutputFormat := OutputFormat s; OutputPath := OutputPath s;
     UserAgent := UserAgent s; IncludeRedirects := IncludeRedirects s;
     RobotsMode := RobotsMode s; AllowHTTPSUpgrade := AllowHTTPSUpgrade s;
     SpiderCodes := SpiderCodes s; DebugCPUProf := DebugCPUProf s;
     configPath := v; flagsSet := flagsSet s |}.

Definition set_flagsSet (v : bool) (s : ScanSettings) : ScanSettings :=
  {| BaseURLs := BaseURLs s; Threads := Threads s; Workers := Workers s;
     ExcludePaths := ExcludePaths s; Proxies := Proxies s;
     ParseHTML := ParseHTML s; SleepTime := SleepTime s;
     LogfilePath := LogfilePath s; LogLevel := LogLevel s;
     WordlistPath := WordlistPath s; Extensions := Extensions s;
     Mangle := Mangle s; QueueSize := QueueSize s; Timeout := Timeout s;
     OutputFormat := OutputFormat s; OutputPath := OutputPath s;
     UserAgent := UserAgent s; IncludeRedirects := IncludeRedirects s;
     RobotsMode := RobotsMode s; AllowHTTPSUpgrade := AllowHTTPSUpgrade s;
     SpiderCodes := SpiderCodes s; DebugCPUProf := DebugCPUProf s;
     configPath := configPath s; flagsSet := v |}.

(** The address of a field of the settings object: [&settings.F]. *)
Definition addr_BaseURLs : Ptr ScanSettings (list string) :=
  {| deref := BaseURLs; assign := set_BaseURLs |}.
Definition addr_Threads : Ptr ScanSettings (Z) :=
  {| deref := Threads; assign := set_Threads |}.
Definition addr_Workers : Ptr ScanSettings (Z) :=
  {| deref := Workers; assign := set_Workers |}.
Definition addr_ExcludePaths : Ptr ScanSettings (list string) :=
  {| deref := ExcludePaths; assign := set_ExcludePaths |}.
Definition addr_Proxies : Ptr ScanSettings (list string) :=
  {| deref := Proxies; assign := set_Proxies |}.
Definition addr_ParseHTML : Ptr ScanSettings (bool) :=
  {| deref := ParseHTML; assign := set_ParseHTML |}.
Definition addr_SleepTime : Ptr ScanSettings (Z) :=
  {| deref := SleepTime; assign := set_SleepTime |}.
Definition addr_LogfilePath : Ptr ScanSettings (string) :=
  {| deref := LogfilePath; assign := set_LogfilePath |}.
Definition addr_LogLevel : Ptr ScanSettings (string) :=
  {| deref := LogLevel; assign := set_LogLevel |}.
Definition addr_WordlistPath : Ptr ScanSettings (string) :=
  {| deref := WordlistPath; assign := set_WordlistPath |}.
Definition addr_Extensions : Ptr ScanSettings (list string) :=
  {| deref := Extensions; assign := set_Extensions |}.
Definition addr_Mangle : Ptr ScanSettings (bool) :=
  {| deref := Mangle; assign := set_Mangle |}.
Definition addr_Timeout : Ptr ScanSettings (Z) :=
  {| deref := Timeout; assign := set_Timeout |}.
Definition addr_OutputFormat : Ptr ScanSettings (string) :=
  {| deref := OutputFormat; assign := set_OutputFormat |}.
Definition addr_OutputPath : Ptr ScanSettings (string) :=
  {| deref := OutputPath; assign := set_OutputPath |}.
Definition addr_UserAgent : Ptr ScanSettings (string) :=
  {| deref := UserAgent; assign := set_UserAgent |}.
Definition addr_IncludeRedirects : Ptr ScanSettings (bool) :=
  {| deref := IncludeRedirects; assign := set_IncludeRedirects |}.
Definition addr_RobotsMode : Ptr ScanSettings (Z) :=
  {| deref := RobotsMode; assign := set_RobotsMode |}.
Definition addr_AllowHTTPSUpgrade : Ptr ScanSettings (bool) :=
  {| deref := AllowHTTPSUpgrade; assign := set_AllowHTTPSUpgrade |}.
Definition addr_SpiderCodes : Ptr ScanSettings (list Z) :=
  {| deref := SpiderCodes; assign := set_SpiderCodes |}.
Definition addr_DebugCPUProf : Ptr ScanSettings (bool) :=
  {| deref := DebugCPUProf; assign := set_DebugCPUProf |}.

(* We handle Robots.txt in various ways *)
Definition IgnoreRobots : Z := 0.
Definition ObeyRobots : Z := 1.
Definition SeedRobots : Z := 2.
Definition robotsModeMax : Z := 3.

Definition robotsModeStrings : list string := ["ignore"; "obey"; "seed"].

Definition DefaultUserAgent : string := "WebBorer 0.01".

Definition nilDeref : string :=
  "invalid memory address or nil pointer dereference".

Definition indexOutOfRange : string := "index out of range".

(** *** The flag values of the package *)
Section FlagValues.
Context `{Unicode} `{Platform}.
Variable M : Type.

(* StringSliceFlag is a flag.Value that takes a comma-separated string and
   turns it into a slice of strings. *)
Record StringSliceFlag := { StringSliceFlag_slice : option (Ptr M (list string)) }.

Definition StringSliceFlag_String (f : StringSliceFlag) (m : M) : string :=
  match StringSliceFlag_slice f with
  | None => ""
  | Some p => strings_Join (deref p m) ","
  end.

Definition StringSliceFlag_Set (f : StringSliceFlag) (value : string)
  : GoM M (option error) :=
  match StringSliceFlag_slice f with
  | None => panic nilDeref
  | Some p => modify (assign p (strings_Split_comma value));; mret None
  end.

(* IntSliceFlag is a flag.Value that takes a comma-separated string and turns
   it into a slice of ints. *)
Record IntSliceFlag := { IntSliceFlag_slice : option (Ptr M (list Z)) }.

Definition IntSliceFlag_String (f : IntSliceFlag) (m : M) : string :=
  match IntSliceFlag_slice f with
  | None => ""
  | Some p =>
      let tmpslice := foldl (λ tmp v, tmp ++ [strconv_Itoa v]) [] (deref p m) in
      strings_Join tmpslice ","
  end.

(* the loop of Set: the ints parsed so far, or the error it returns *)
Fixpoint IntSliceFlag_Set_loop (vs : list string) (ints : list Z)
  : list Z + error :=
  match vs with
  | [] => inl ints
  | v :: rest =>
      match strconv_Atoi (strings_TrimSpace v) with
      | Some i => IntSliceFlag_Set_loop rest (ints ++ [i])
      | None => inr ("Unable to parse " +:+ v +:+ " as int.")
      end
  end.

Definition IntSliceFlag_Set (f : IntSliceFlag) (value : string)
  : GoM M (option error) :=
  match IntSliceFlag_Set_loop (strings_Split_comma value) [] with
  | inr err => mret (Some err)
  | inl ints =>
      match IntSliceFlag_slice f with
      | None => panic nilDeref
      | Some p => modify (assign p ints);; mret None
      end
  end.

(* DurationFlag is a flag.Value that takes a Duration spec (see
   time.Duration) and parses it and stores the Duration. *)
Record DurationFlag := { DurationFlag_d : option (Ptr M Z) }.

Definition DurationFlag_String (f : DurationFlag) (m : M) : string :=
  match DurationFlag_d f with
  | None => ""
  | Some p => Duration_String (deref p m)
  end.

Definition DurationFlag_Set (f : DurationFlag) (value : string)
  : GoM M (option error) :=
  match time_ParseDuration value with
  | inr err => mret (Some err)
  | inl d =>
      match DurationFlag_d f with
      | None => panic nilDeref
      | Some p => modify (assign p d);; mret None
      end
  end.

(* RobotsFlag is a RobotsMode as a flag *)
Record robotsFlag := { robotsFlag_mode : option (Ptr M Z) }.

(* robotsModeStrings[i] *)
Definition robotsModeStrings_at (i : Z) : outcome string :=
  if (0 <=? i) && (i <? Z.of_nat (length robotsModeStrings))
  then match robotsModeStrings !! Z.to_nat i with
       | Some str => Returned str
       | None => Panicked indexOutOfRange
       end
  else Panicked indexOutOfRange.

Definition robotsFlag_String (f : robotsFlag) (m : M) : outcome string :=
  match robotsFlag_mode f with
  | None => robotsModeStrings_at IgnoreRobots
  | Some p => robotsModeStrings_at (deref p m)
  end.

Fixpoint robotsFlag_Set_loop (f : robotsFlag) (value : string) (i : Z)
    (vals : list string) : GoM M (option error) :=
  match vals with
  | [] => mret (Some ("Unknown Robots Mode: " +:+ value))
  | val :: rest =>
      if decide (val = value)
      then match robotsFlag_mode f with
           | None => panic nilDeref
           | Some p => modify (assign p i);; mret None
           end
      else robotsFlag_Set_loop f value (i + 1) rest
  end.

Definition robotsFlag_Set (f : robotsFlag) (value : string)
  : GoM M (option error) :=
  robotsFlag_Set_loop f value 0 robotsModeStrings.

End FlagValues.

Global Arguments StringSliceFlag_slice {M} _.
Global Arguments StringSliceFlag_String {M} _ _.
Global Arguments StringSliceFlag_Set {M} _ _.
Global Arguments IntSliceFlag_slice {M} _.
Global Arguments IntSliceFlag_String {M} _ _.
Global Arguments IntSliceFlag_Set_loop {_ _} _ _.
Global Arguments IntSliceFlag_Set {_ _ M} _ _.
Global Arguments DurationFlag_d {M} _.
Global Arguments DurationFlag_String {_ M} _ _.
Global Arguments DurationFlag_Set {_ M} _ _.
Global Arguments robotsFlag_mode {M} _.
Global Arguments robotsFlag_String {M} _ _.
Global Arguments robotsFlag_Set {M} _ _.

(** *** Package flag, as the package uses it *)

(** The implementations of [flag.Value] that get registered: the four types
    above, and package flag's own values for int, bool and string flags. *)
Inductive FlagValue :=
| StringSliceValue (f : StringSliceFlag ScanSettings)
| IntSliceValue (f : IntSliceFlag ScanSettings)
| DurationValue (f : DurationFlag ScanSettings)
| robotsValue (f : robotsFlag ScanSettings)
| intValue (p : Ptr ScanSettings Z)
| boolValue (p : Ptr ScanSettings bool)
| stringValue (p : Ptr ScanSettings string).

(* flag.Flag *)
Record Flag := {
  Name : string;
  Usage : string;
  Value : FlagValue;
  DefValue : string
}.

(** The state the package works on: the settings object, the flags
    registered on [flag.CommandLine], the package variable [outputFormats],
    and what has been sent out. *)
Record World := {
  scanSettings : ScanSettings;
  CommandLine : gmap string Flag;
  outputFormats : list string;
  trace : list Event
}.

Definition set_scanSettings (v : ScanSettings) (w : World) : World :=
  {| scanSettings := v; CommandLine := CommandLine w;
     outputFormats := outputFormats w; trace := trace w |}.

Definition set_CommandLine (v : gmap string Flag) (w : World) : World :=
  {| scanSettings := scanSettings w; CommandLine := v;
     outputFormats := outputFormats w; trace := trace w |}.

Definition set_outputFormats (v : list string) (w : World) : World :=
  {| scanSettings := scanSettings w; CommandLine := CommandLine w;
     outputFormats := v; trace := trace w |}.

Definition set_trace (v : list Event) (w : World) : World :=
  {| scanSettings := scanSettings w; CommandLine := CommandLine w;
     outputFormats := outputFormats w; trace := v |}.

Global Instance World_traced : Traced World :=
  λ e w, set_trace (trace w ++ [e]) w.

(* an assignment through a pointer into the settings object *)
Definition store {A} (p : Ptr ScanSettings A) (v : A) : GoM World unit :=
  modify (λ w, set_scanSettings (assign p v (scanSettings w)) w).

Section Flags.
Context `{Unicode} `{Platform}.

(* the method String of a flag.Value *)
Definition FlagValue_String (v : FlagValue) (m : ScanSettings) : outcome string :=
  match v with
  | StringSliceValue f => Returned (StringSliceFlag_String f m)
  | IntSliceValue f => Returned (IntSliceFlag_String f m)
  | DurationValue f => Returned (DurationFlag_String f m)
  | robotsValue f => robotsFlag_String f m
  | intValue p => Returned (strconv_Itoa (deref p m))
  | boolValue p => Returned (strconv_FormatBool (deref p m))
  | stringValue p => Returned (deref p m)
  end.

(** [flag.Var]: remembers the default value as a string, and panics when the
    name is already registered. *)
Definition flag_Var (value : FlagValue) (name usage : string) : GoM World unit :=
  λ w,
    match FlagValue_String value (scanSettings w) with
    | Panicked msg => Panicked msg
    | Returned def =>
        match CommandLine w !! name with
        | Some _ => Panicked ("flag redefined: " +:+ name)
        | None =>
            let flag := {| Name := name; Usage := usage; Value := value;
                           DefValue := def |} in
            Returned ((), set_CommandLine (<[name := flag]> (CommandLine w)) w)
        end
    end.

(* flag.IntVar, flag.BoolVar, flag.StringVar: the variable gets the default *)
Definition flag_IntVar (p : Ptr ScanSettings Z) (name : string) (value : Z)
    (usage : string) : GoM World unit :=
  store p value;; flag_Var (intValue p) name usage.

Definition flag_BoolVar (p : Ptr ScanSettings bool) (name : string)
    (value : bool) (usage : string) : GoM World unit :=
  store p value;; flag_Var (boolValue p) name usage.

Definition flag_StringVar (p : Ptr ScanSettings string) (name : string)
    (value : string) (usage : string) : GoM World unit :=
  store p value;; flag_Var (stringValue p) name usage.

End Flags.

(** *** The settings object *)
Section Settings.
Context `{Unicode} `{Platform} `{NetURL}.
(* logging.LogLevelStrings, of package logging *)
Variable LogLevelStrings : list string.

(* the flags that are registered when flagsSet is not yet set *)
Definition InitFlags_register : GoM World unit :=
  let baseUrlValue := {| StringSliceFlag_slice := Some addr_BaseURLs |} in
  flag_Var (StringSliceValue baseUrlValue) "url" "Starting `URL` & scopes.";;
  flag_IntVar addr_Threads "threads" NumCPU "Number of worker `threads`.";;
  flag_IntVar addr_Workers "workers" (wrapInt (NumCPU * 2)) "Number of `workers`.";;
  let excludePathValue := {| StringSliceFlag_slice := Some addr_ExcludePaths |} in
  flag_Var (StringSliceValue excludePathValue) "exclude"
    "List of `paths` to exclude from search.";;
  flag_BoolVar addr_ParseHTML "html" true
    "Parse HTML documents for links to follow.";;
  flag_BoolVar addr_AllowHTTPSUpgrade "allow-upgrade" false
    "Allow HTTP->HTTPS upgrades.";;
  let sleepTimeValue := {| DurationFlag_d := Some addr_SleepTime |} in
  flag_Var (DurationValue sleepTimeValue) "sleep"
    "Time (as `duration`) to sleep between requests.";;
  flag_StringVar addr_LogfilePath "logfile" ""
    "Logfile `filename` (defaults to stderr)";;
  flag_StringVar addr_WordlistPath "wordlist" ""
    "Wordlist `filename` to use (default built-in)";;
  let extensionValue := {| StringSliceFlag_slice := Some addr_Extensions |} in
  flag_Var (StringSliceValue extensionValue) "extensions"
    "List of `extensions` to mangle with.";;
  flag_BoolVar addr_Mangle "mangle" true "Mangle by adding extensions.";;
  let proxyValue := {| StringSliceFlag_slice := Some addr_Proxies |} in
  flag_Var (StringSliceValue proxyValue) "proxy" "Proxy or `proxies` to use.";;
  let timeoutValue := {| DurationFlag_d := Some addr_Timeout |} in
  flag_Var (DurationValue timeoutValue) "timeout"
    "Network connection timeout (`duration`).";;
  formats ← gets outputFormats;
  match formats with
  | format0 :: _ :: _ =>
      let formatHelp :=
        "Output `format`.  Options: [" +:+ strings_Join formats ", " +:+ "]" in
      flag_StringVar addr_OutputFormat "format" format0 formatHelp
  | _ => mret ()
  end;;
  flag_StringVar addr_OutputPath "outfile" ""
    "Output `file`, defaults to stdout.";;
  let loglevelHelp :=
    "Log `level`.  Options: [" +:+ strings_Join LogLevelStrings ", " +:+ "]" in
  level ← gets (λ w, LogLevel (scanSettings w));
  flag_StringVar addr_LogLevel "loglevel" level loglevelHelp;;
  flag_StringVar addr_UserAgent "user-agent" DefaultUserAgent
    "`User-Agent` for requests";;
  flag_BoolVar addr_IncludeRedirects "include-redirects" false
    "Include redirects in reports.";;
  let robotsModeHelp :=
    "Robots `mode`.  Options: [" +:+ strings_Join robotsModeStrings ", " +:+ "]" in
  let robotsModeVar := {| robotsFlag_mode := Some addr_RobotsMode |} in
  let spiderCodesValue := {| IntSliceFlag_slice := Some addr_SpiderCodes |} in
  flag_Var (IntSliceValue spiderCodesValue) "spider-codes"
    "HTTP Response Codes to Continue Spidering On.";;
  flag_Var (robotsValue robotsModeVar) "robots-mode" robotsModeHelp;;
  (* Debugging flags *)
  flag_BoolVar addr_DebugCPUProf "debug-cpuprof" false "[DEBUG] CPU Profiling";;
  modify (λ w, set_scanSettings (set_flagsSet true (scanSettings w)) w).

(* Setup all of the flags.  Should be called *early* *)
Definition InitFlags : GoM World unit :=
  set ← gets (λ w, flagsSet (scanSettings w));
  if set : bool then mret () else InitFlags_register.

(* Constructs a ScanSettings struct with all of the defaults to be used. *)
Definition defaultSettings : ScanSettings :=
  {| BaseURLs := []; Threads := NumCPU; Workers := 0; ExcludePaths := [];
     Proxies := []; ParseHTML := false; SleepTime := 0; LogfilePath := "";
     LogLevel := "WARNING"; WordlistPath := "";
     Extensions := ["html"; "php"; "asp"; "aspx"]; Mangle := true;
     QueueSize := 1024; Timeout := 30 * 1000000000; OutputFormat := "";
     OutputPath := ""; UserAgent := ""; IncludeRedirects := false;
     RobotsMode := 0; AllowHTTPSUpgrade := false; SpiderCodes := [200];
     DebugCPUProf := false; configPath := ""; flagsSet := false |}.

Definition NewScanSettings : GoM World unit :=
  modify (set_scanSettings defaultSettings);; InitFlags.

(* Load from the specified file *)
Definition LoadFromConfigFile (path : string) : GoM World unit :=
  InitFlags;;
  modify (λ w, set_scanSettings (set_configPath path (scanSettings w)) w).

Definition newline : string := String (ascii_of_N 10) EmptyString.

(* Validate settings *)
Definition flagError (str : string) : GoM World error :=
  modify (emit (StderrWrite ("Usage:" +:+ newline)));;
  modify (emit FlagPrintDefaults);;
  mret str.

Definition Validate : GoM World (option error) :=
  baseURLs ← gets (λ w, BaseURLs (scanSettings w));
  if decide (length baseURLs = 0%nat)
  then err ← flagError "URL is required."; mret (Some err)
  else mret None.

(* Convert BaseURL strings to URLs *)
Fixpoint GetScopes_loop (i : nat) (baseURLs : list string)
    (scopes : list (option URL)) : GoM World (list (option URL) + error) :=
  match baseURLs with
  | [] => mret (inl scopes)
  | baseURL :: rest =>
      match url_Parse baseURL with
      | inr err =>
          mret (inr ("Unable to parse BaseURL (" +:+ baseURL +:+ "): " +:+ err))
      | inl parsed =>
          let scope :=
            if decide (Path parsed = "") then set_Path "/" parsed else parsed in
          let scopes := <[i := Some scope]> scopes in
          Logf LogDebug ("Added BaseURL: " +:+ URL_String scope);;
          GetScopes_loop (S i) rest scopes
      end
  end.

Definition GetScopes : GoM World (list (option URL) + error) :=
  baseURLs ← gets (λ w, BaseURLs (scanSettings w));
  GetScopes_loop 0 baseURLs (replicate (length baseURLs) None).

(* Init output formats *)
Definition SetOutputFormats (formats : list string) : GoM World unit :=
  modify (set_outputFormats formats).

End Settings.

(** *** Configuration files and the command line *)

(** What packages os, os/user and path/filepath give the package. *)
Class OS := {
  (* os.Stat: None for an error, else whether the path is a directory *)
  os_Stat : string → option bool;
  (* user.Current: the home directory of the current user, None for an error *)
  user_Current : option string;
  (* filepath.Join *)
  filepath_Join : list string → string
}.

(** [flag.Parse()] on the command line of the process: the flags it names are
    set through their values, and it returns, leaving the arguments that are
    no flags ([flag.Args]), or stops the program. *)
Class CommandLineArgs := flag_Parse : GoM World (list string).

Section Config.
Context `{Platform} `{OS} `{CommandLineArgs}.
Variable LogLevelStrings : list string.

(* config_unix.go: the package variable, as it is declared *)
Definition declaredConfigPaths : list string :=
  (* This will be prepended by $HOME/.config/webborer.conf *)
  ["/etc/webborer.conf"].

(* config_unix.go: the package variable, once init has run *)
Definition defaultConfigPaths : list string :=
  match user_Current with
  | Some homeDir =>
      let path := filepath_Join [homeDir; ".config"; "webborer.conf"] in
      [path] ++ declaredConfigPaths
  | None => declaredConfigPaths
  end.

(* the loop of LoadFromDefaultConfigFiles over the paths that are left *)
Fixpoint LoadFromDefaultConfigFiles_loop (paths : list string) : GoM World unit :=
  match paths with
  | [] => mret ()
  | path :: rest =>
      match os_Stat path with
      | Some isDir =>
          if isDir then LoadFromDefaultConfigFiles_loop rest
          else LoadFromConfigFile LogLevelStrings path
      | None => LoadFromDefaultConfigFiles_loop rest
      end
  end.

(* Load settings from the first file found in searchPaths *)
Definition LoadFromDefaultConfigFiles : GoM World unit :=
  LoadFromDefaultConfigFiles_loop defaultConfigPaths.

(* Parse command line flags into settings *)
Definition ParseFlags : GoM World unit :=
  InitFlags LogLevelStrings;;
  args ← flag_Parse;
  modify (λ w,
    set_scanSettings
      (foldl (λ s arg, set_BaseURLs (BaseURLs s ++ [arg]) s) (scanSettings w) args)
      w).

(* Create settings that includes configuration files and command line flags. *)
Definition GetScanSettings : GoM World (ScanSettings + error) :=
  NewScanSettings LogLevelStrings;;
  LoadFromDefaultConfigFiles;;
  ParseFlags;;
  err ← Validate;
  match err with
  | Some e => mret (inr e)
  | None => s ← gets scanSettings; mret (inl s)
  end.

End Config.

End settings.

(** ** Package util *)
Module util.

(** Modelled from the spec: [util.DedupeStrings], which is not among the
    sources.  The link results are a "set of strings", "ordering of output is
    insertion-irrelevant, only distinctness matters": the strings are put in a
    set, and the result lists the set's elements. *)
Definition DedupeStrings (s : list string) : list string :=
  elements (list_to_set s : gset string).

End util.

(** ** Package worker *)
Module worker.

(* http.Response, as far as the worker reads it *)
Record Response := {
  StatusCode : Z;
  Header : gmap string (list string);
  ContentLength : Z
}.

Section HTMLWorker.
Context `{Unicode} `{NetURL} `{HTMLParser}.
Context {St : Type} `{Traced St}.

Record HTMLWorker := {
  (* Function to add future work *)
  adder : list URL → GoM St unit
}.

Definition NewHTMLWorker (adder : list URL → GoM St unit) : HTMLWorker :=
  {| adder := adder |}.

Definition Eligible (resp : Response) : bool :=
  let ct := Header_Get (Header resp) "Content-type" in
  if decide (strings_ToLower ct ≠ "text/html") then false
  else (0 <? ContentLength resp) && (ContentLength resp <? 1024 * 1024).

(* the loop over node.Attr: the first href is appended, then break *)
Fixpoint appendHref (attrs : list Attribute) (links : list string) : list string :=
  match attrs with
  | [] => links
  | a :: rest =>
      if decide (strings_ToLower (Key a) = "href") then links ++ [Val a]
      else appendHref rest links
  end.

(* the closure handleNode of GetLinks, with the links it appends to *)
Fixpoint handleNode (node : Node) (links : list string) : list string :=
  let links :=
    if decide (Type_ node = ElementNode) then
      if decide (strings_ToLower (Data node) = "a")
      then appendHref (Attr node) links
      else links
    else links in
  (* Handle children *)
  foldl (λ links n, handleNode n links) links (children node).

Definition GetLinks (body : Reader) : GoM St (list string) :=
  match html_Parse body with
  | inr err =>
      Logf LogInfo ("Unable to parse HTML document: " +:+ err);; mret []
  | inl tree => mret (util.DedupeStrings (handleNode tree []))
  end.

(* the loop of Handle over the links, with the URLs found so far *)
Fixpoint Handle_loop (URL_ : URL) (links : list string) (foundURLs : list URL)
  : GoM St (list URL) :=
  match links with
  | [] => mret foundURLs
  | l :: rest =>
      match url_Parse l with
      | inr err =>
          Logf LogInfo ("Error parsing URL (" +:+ l +:+ "): " +:+ err);;
          Handle_loop URL_ rest foundURLs
      | inl u => Handle_loop URL_ rest (foundURLs ++ [ResolveReference URL_ u])
      end
  end.

Definition Handle (w : HTMLWorker) (URL_ : URL) (body : Reader) : GoM St unit :=
  links ← GetLinks body;
  foundURLs ← Handle_loop URL_ links [];
  adder w foundURLs.

End HTMLWorker.

Global Arguments HTMLWorker St : clear implicits.

Section Mangler.
(* what Mangle returns for a name that holds an extension delimiter, which
   the spec leaves open *)
Variable Mangle_withExtension : string → list string → gset string.

(** Modelled from the spec: [Mangle], of which the sources hold the test
    [TestMangle] only.  For a bare name with no extension delimiter it returns
    the set made of name and of name + . + ext for each ext in extensions. *)
Definition Mangle (name : string) (extensions : list string) : gset string :=
  if strings_Contains name "." then Mangle_withExtension name extensions
  else {[ name ]} ∪ list_to_set ((λ ext, name +:+ "." +:+ ext) <$> extensions).

End Mangler.

End worker.

(** ** Package workqueue *)
Module workqueue.

Section WorkQueue.
(* the normalized string key of a URL *)
Variable normKey : URL → string.

(** Modelled from the spec: the state of the [WorkQueue], which is not among
    the sources: the set of keys seen, the pending count, and the URLs
    available for dequeue. *)
Record WorkQueue := {
  seen : gset string;
  pending : nat;
  queue : list URL
}.

(* a queue to which nothing has been added yet *)
Definition NewWorkQueue : WorkQueue := {| seen := ∅; pending := 0; queue := [] |}.

(** Modelled from the spec: one URL of an [Add].  "If not already seen (by
    normalized string key), mark seen and increment pending count, then make
    it available for dequeue.  URLs already seen are silently dropped." *)
Definition add1 (q : WorkQueue) (u : URL) : WorkQueue :=
  if decide (normKey u ∈ seen q) then q
  else {| seen := {[ normKey u ]} ∪ seen q;
          pending := S (pending q);
          queue := queue q ++ [u] |}.

(** Modelled from the spec: [Add(urls: ...URL)], "for each URL". *)
Definition Add (urls : list URL) (q : WorkQueue) : WorkQueue :=
  foldl add1 q urls.

(* a sequence of Add calls, one list of URLs for each call *)
Definition AddCalls (calls : list (list URL)) (q : WorkQueue) : WorkQueue :=
  foldl (λ q urls, Add urls q) q calls.

End WorkQueue.

End workqueue.

(** * Specification *)

(** ** What the statements below speak of *)

(** [InTree n root]: the node [n] is [root] or one of its descendants. *)
Inductive InTree : Node → Node → Prop :=
| InTree_root n : InTree n n
| InTree_child n c root : c ∈ children root → InTree n c → InTree n root.

(** Induction over a document tree: a property holds of every node as soon as
    it holds of a node whenever it holds of all its children. *)
Section NodeInduction.
Variable P : Node → Prop.
Hypothesis step : ∀ t d a cs, Forall P cs → P (mkNode t d a cs).

Fixpoint Node_ind (n : Node) : P n :=
  match n with
  | mkNode t d a cs =>
      step t d a cs
        ((fix all (l : list Node) : Forall P l :=
            match l with
            | [] => List.Forall_nil P
            | c :: l' => List.Forall_cons P c l' (Node_ind c) (all l')
            end) cs)
  end.

End NodeInduction.

Section Anchors.
Context `{Unicode}.

(** [FirstHref attrs v]: [v] is the value of the first attribute of [attrs]
    whose key is href, whatever the case of its letters. *)
Inductive FirstHref : list Attribute → string → Prop :=
| FirstHref_here a rest :
    strings_ToLower (Key a) = "href" → FirstHref (a :: rest) (Val a)
| FirstHref_later a rest v :
    strings_ToLower (Key a) ≠ "href" → FirstHref rest v →
    FirstHref (a :: rest) v.

(** [AnchorHref n v]: [n] is an anchor element and [v] is its href. *)
Definition AnchorHref (n : Node) (v : string) : Prop :=
  Type_ n = ElementNode ∧ strings_ToLower (Data n) = "a" ∧
  FirstHref (Attr n) v.

End Anchors.

Section HandleSpec.
Context `{NetURL}.

(* the URL a link resolves to against the base, when the link parses *)
Definition resolved (base : URL) (l : string) : option URL :=
  match url_Parse l with
  | inl u => Some (ResolveReference base u)
  | inr _ => None
  end.

(* the message logged for a link that does not parse *)
Definition parseFailure (l : string) : option Event :=
  match url_Parse l with
  | inl _ => None
  | inr err => Some (Logged LogInfo ("Error parsing URL (" +:+ l +:+ "): " +:+ err))
  end.

End HandleSpec.

Section SettingsSpec.
Context `{Unicode} `{Platform} `{NetURL}.

(* the component parses as an int, once trimmed *)
Definition parsesTo (v : string) (i : Z) : Prop :=
  strconv_Atoi (strings_TrimSpace v) = Some i.

Definition failsToParse (v : string) : Prop :=
  strconv_Atoi (strings_TrimSpace v) = None.

(* the scope made from a parsed base URL: an empty path becomes / *)
Definition scopeOf (parsed : URL) : URL :=
  if decide (Path parsed = "") then set_Path "/" parsed else parsed.

Definition failsToParseURL (baseURL : string) : Prop :=
  ∃ err, url_Parse baseURL = inr err.

End SettingsSpec.

(* the events sent out one after the other *)
Definition emitAll `{Traced St} (es : list Event) (st : St) : St :=
  foldl (λ st e, emit e st) st es.

(* n calls of m in a row *)
Fixpoint calls {St} (n : nat) (m : GoM St unit) : GoM St unit :=
  match n with
  | O => mret ()
  | S n' => m;; calls n' m
  end.

(** ** A concrete environment, for the examples *)
Module Sample.

Definition unicode : Unicode :=
  {| unicode_ToLower := λ s, s; unicode_TrimSpace := λ s, s |}.

Definition platform : Platform :=
  {| NumCPU := 4;
     IntSize := 64;
     Duration_String := λ d, strconv_Itoa d +:+ "ns";
     time_ParseDuration := λ _, inr "time: invalid duration" |}.

Definition emptyURL : URL :=
  {| Scheme := ""; Opaque := ""; User := None; Host := ""; Path := "";
     RawPath := ""; RawQuery := ""; Fragment := "" |}.

(* a parser that refuses what starts with a colon, and otherwise reads the
   string either as a bare host (after //) or as a path *)
Definition parse (s : string) : URL + error :=
  match s with
  | String ":" _ => inr "missing protocol scheme"
  | String "/" (String "/" host) =>
      inl {| Scheme := ""; Opaque := ""; User := None; Host := host;
             Path := ""; RawPath := ""; RawQuery := ""; Fragment := "" |}
  | _ => inl (set_Path s emptyURL)
  end.

Definition netURL : NetURL :=
  {| url_Parse := parse;
     URL_String := λ u,
       (if decide (Scheme u = "") then "" else Scheme u +:+ ":")
       +:+ (if decide (Host u = "") then "" else "//" +:+ Host u)
       +:+ Path u;
     ResolveReference := λ base ref,
       {| Scheme := Scheme base; Opaque := ""; User := User base;
          Host := if decide (Host ref = "") then Host base else Host ref;
          Path := Path ref; RawPath := ""; RawQuery := RawQuery ref;
          Fragment := Fragment ref |} |}.

(* a normalized key for the work queue *)
Definition key (u : URL) : string := Host u +:+ Path u.

(* a reader either yields a parsed document or fails *)
Definition htmlParser : HTMLParser :=
  {| Reader := Node + error; html_Parse := λ r, r |}.

Definition attr (k v : string) : Attribute :=
  {| Namespace := ""; Key := k; Val := v |}.

Definition elem (tag : string) (attrs : list Attribute) (cs : list Node) : Node :=
  mkNode ElementNode tag attrs cs.

Definition text (s : string) : Node := mkNode TextNode s [] [].

(* <html><body><a href=/about>a</a><p><A HREF=/about class=x></A>
   <a name=top></a><a href=:bad href=/second></a></p><b href=/no></b> *)
Definition document : Node :=
  mkNode DocumentNode "" []
    [elem "html" []
       [elem "body" []
          [elem "a" [attr "href" "/about"] [text "a"];
           elem "p" []
             [elem "A" [attr "HREF" "/about"; attr "class" "x"] [];
              elem "a" [attr "name" "top"] [];
              elem "a" [attr "href" ":bad"; attr "href" "/second"] []];
           elem "b" [attr "href" "/no"] []]]].

Definition base : URL :=
  {| Scheme := "http"; Opaque := ""; User := None; Host := "example.test";
     Path := "/"; RawPath := ""; RawQuery := ""; Fragment := "" |}.

Definition htmlResponse (len : Z) : worker.Response :=
  {| worker.StatusCode := 200;
     worker.Header := {[ "Content-Type" := ["Text/HTML"] ]};
     worker.ContentLength := len |}.

(* a worker whose adder records the call in the state *)
Definition recorder : worker.HTMLWorker (list Event * list (list URL)) :=
  {| worker.adder := λ urls, modify (λ st, (st.1, st.2 ++ [urls])) |}.

Definition recorder_traced : Traced (list Event * list (list URL)) :=
  λ e st, (st.1 ++ [e], st.2).

Definition world (s : settings.ScanSettings) : settings.World :=
  {| settings.scanSettings := s; settings.CommandLine := ∅;
     settings.outputFormats := ["text"; "csv"; "html"]; settings.trace := [] |}.

End Sample.

(* the state after the first call of InitFlags on the default settings *)
Definition afterInitFlags : settings.World :=
  match @settings.InitFlags Sample.platform ["DEBUG"; "INFO"; "WARNING"]
          (Sample.world (@settings.defaultSettings Sample.platform)) with
  | Returned (_, w1) => w1
  | Panicked _ => Sample.world (@settings.defaultSettings Sample.platform)
  end.

(** ** What the further statements speak of *)

(* the number of bytes of s that are c *)
Fixpoint countByte (c : ascii) (s : string) : nat :=
  match s with
  | EmptyString => 0%nat
  | String c' s' => ((if decide (c' = c) then 1 else 0) + countByte c s')%nat
  end.

(* a byte of a printed int: a digit or the sign *)
Definition isIntByte (c : ascii) : bool :=
  isDigitByte c || bool_decide (c = "-"%char).

(* the values of an int *)
Definition fitsInt `{Platform} (z : Z) : Prop :=
  - 2 ^ (IntSize - 1) ≤ z < 2 ^ (IntSize - 1).

(* the names that InitFlags registers, in the order it does: format only
   with two output formats or more *)
Definition flagNameList (formats : list string) : list string :=
  ["url"; "threads"; "workers"; "exclude"; "html"; "allow-upgrade"; "sleep";
   "logfile"; "wordlist"; "extensions"; "mangle"; "proxy"; "timeout"]
  ++ match formats with
     | _ :: _ :: _ => ["format"]
     | _ => []
     end
  ++ ["outfile"; "loglevel"; "user-agent"; "include-redirects"; "spider-codes";
      "robots-mode"; "debug-cpuprof"].

Definition flagNames (formats : list string) : gset string :=
  list_to_set (flagNameList formats).

(* the settings once the flags are registered: the fields bound to an int, a
   bool or a string flag hold the default of the flag *)
Definition flagDefaults `{Platform} (formats : list string)
    (s : settings.ScanSettings) : settings.ScanSettings :=
  {| settings.BaseURLs := settings.BaseURLs s;
     settings.Threads := NumCPU;
     settings.Workers := wrapInt (NumCPU * 2);
     settings.ExcludePaths := settings.ExcludePaths s;
     settings.Proxies := settings.Proxies s;
     settings.ParseHTML := true;
     settings.SleepTime := settings.SleepTime s;
     settings.LogfilePath := "";
     settings.LogLevel := settings.LogLevel s;
     settings.WordlistPath := "";
     settings.Extensions := settings.Extensions s;
     settings.Mangle := true;
     settings.QueueSize := settings.QueueSize s;
     settings.Timeout := settings.Timeout s;
     settings.OutputFormat :=
       match formats with
       | format0 :: _ :: _ => format0
       | _ => settings.OutputFormat s
       end;
     settings.OutputPath := "";
     settings.UserAgent := settings.DefaultUserAgent;
     settings.IncludeRedirects := false;
     settings.RobotsMode := settings.RobotsMode s;
     settings.AllowHTTPSUpgrade := false;
     settings.SpiderCodes := settings.SpiderCodes s;
     settings.DebugCPUProf := false;
     settings.configPath := settings.configPath s;
     settings.flagsSet := true |}.


(* the first path that os.Stat finds and that is no directory *)
Definition firstConfigFile `{settings.OS} (paths : list string) : option string :=
  snd <$> list_find (λ path, settings.os_Stat path = Some false) paths.

(* a file system with the two configuration files, where the home directory
   of the current user is /home/u *)
Definition sampleOS : settings.OS :=
  {| settings.os_Stat := λ path,
       if decide (path = "/home/u/.config/webborer.conf") then Some false
       else if decide (path = "/etc/webborer.conf") then Some false
       else if decide (path = "/etc") then Some true
       else None;
     settings.user_Current := Some "/home/u";
     settings.filepath_Join := λ elems, strings_Join elems "/" |}.

(* a command line that sets no flag and leaves two arguments *)
Definition sampleArgs : settings.CommandLineArgs :=
  mret ["http://example.test/"; "http://example.test/admin"].

(* a run that returns *)
Definition returns {St A} (m : GoM St A) (st : St) : Prop :=
  ∃ a st', m st = Returned (a, st').

Section FurtherSpec.
Context `{NetURL} `{settings.OS}.

(* the state once the configuration file, if any, is loaded *)
Definition withConfigFile (w : settings.World) : settings.World :=
  match firstConfigFile settings.defaultConfigPaths with
  | Some path =>
      settings.set_scanSettings
        (settings.set_configPath path (settings.scanSettings w)) w
  | None => w
  end.

(* the lines logged for the base URLs that parse *)
Definition scopeLog (baseURL : string) : option Event :=
  match url_Parse baseURL with
  | inl parsed => Some (Logged LogDebug ("Added BaseURL: " +:+ URL_String (scopeOf parsed)))
  | inr _ => None
  end.

End FurtherSpec.

(** ** The monad *)

Lemma GoM_bind_Returned {St A B} (m : GoM St A) (f : A → GoM St B) st b st' :
  (m ≫= f) st = Returned (b, st') →
  ∃ a st1, m st = Returned (a, st1) ∧ f a st1 = Returned (b, st').
Proof.
  unfold mbind, GoM_bind. destruct (m st) as [[a st1]|msg]; [|discriminate].
  intros Hf. by exists a, st1.
Qed.

Lemma GoM_bind_step {St A B} (m : GoM St A) (f : A → GoM St B) st a st1 :
  m st = Returned (a, st1) → (m ≫= f) st = f a st1.
Proof. unfold mbind, GoM_bind. by intros ->. Qed.

(** ** HTML worker: eligibility *)

(* the header is read under its canonical key, Content-Type *)
Lemma Header_Get_content_type (h : gmap string (list string)) :
  Header_Get h "Content-type"
  = match h !! "Content-Type" with Some (v :: _) => v | _ => "" end.
Proof. reflexivity. Qed.

Section EligibleSpec.
Context `{Unicode}.

(** C1: Eligible returns true exactly when the lowercased Content-type header
    is text/html and the content length lies strictly between 0 and 1048576;
    a length of 0 or of 1048576 is not eligible, and a length of 1 with
    content type text/html is. *)
Theorem Eligible_iff :
  (∀ resp : worker.Response,
     worker.Eligible resp = true ↔
     strings_ToLower (Header_Get (worker.Header resp) "Content-type") = "text/html"
     ∧ 0 < worker.ContentLength resp ∧ worker.ContentLength resp < 1048576)
  ∧ (∀ resp, worker.ContentLength resp = 0 → worker.Eligible resp = false)
  ∧ (∀ resp, worker.ContentLength resp = 1048576 → worker.Eligible resp = false)
  ∧ (∀ resp,
       strings_ToLower (Header_Get (worker.Header resp) "Content-type") = "text/html" →
       worker.ContentLength resp = 1 → worker.Eligible resp = true).
Proof.
  assert (Hiff : ∀ resp : worker.Response,
     worker.Eligible resp = true ↔
     strings_ToLower (Header_Get (worker.Header resp) "Content-type") = "text/html"
     ∧ 0 < worker.ContentLength resp ∧ worker.ContentLength resp < 1048576).
  { intros resp. unfold worker.Eligible.
    destruct (decide (strings_ToLower _ ≠ "text/html")) as [Hne|Heq].
    - split; [discriminate|]. intros [Hct _]. by destruct Hne.
    - apply dec_stable in Heq. rewrite andb_true_iff, !Z.ltb_lt.
      change (1024 * 1024) with 1048576. tauto. }
  split; [exact Hiff|]. split; [|split].
  - intros resp Hlen. apply not_true_is_false. rewrite Hiff. lia.
  - intros resp Hlen. apply not_true_is_false. rewrite Hiff. lia.
  - intros resp Hct Hlen. apply Hiff. split; [done|lia].
Qed.

End EligibleSpec.

(* the header key is looked up in its canonical form, and the content type is
   compared without regard to case *)
Example Eligible_sample :
  CanonicalMIMEHeaderKey "Content-type" = "Content-Type"
  ∧ @worker.Eligible Sample.unicode (Sample.htmlResponse 1) = true
  ∧ @worker.Eligible Sample.unicode (Sample.htmlResponse 1048575) = true
  ∧ @worker.Eligible Sample.unicode (Sample.htmlResponse 0) = false
  ∧ @worker.Eligible Sample.unicode (Sample.htmlResponse 1048576) = false
  ∧ @worker.Eligible Sample.unicode (Sample.htmlResponse (-1)) = false.
Proof. by vm_compute. Qed.

(** ** HTML worker: link extraction *)

Lemma InTree_inv n t d a cs :
  InTree n (mkNode t d a cs) ↔
  n = mkNode t d a cs ∨ ∃ c, c ∈ cs ∧ InTree n c.
Proof.
  split.
  - inversion 1 as [|? c ? Hc Hn]; subst; [by left|]. right. by exists c.
  - intros [-> | (c & Hc & Hn)]; [constructor|]. by apply InTree_child with c.
Qed.

Section GetLinksSpec.
Context `{Unicode} `{HTMLParser}.
Context {St : Type} `{Traced St}.

Lemma appendHref_elem attrs links v :
  v ∈ worker.appendHref attrs links ↔ v ∈ links ∨ FirstHref attrs v.
Proof.
  induction attrs as [|a rest IH]; simpl.
  - split; [by left|]. intros [?|Hf]; [done|inversion Hf].
  - destruct (decide (strings_ToLower (Key a) = "href")) as [Hk|Hk].
    + rewrite elem_of_app, list_elem_of_singleton. split.
      * intros [? | ->]; [by left|]. right. by constructor.
      * intros [?|Hf]; [by left|]. right.
        inversion Hf; subst; [done|contradiction].
    + rewrite IH. split.
      * intros [?|Hf]; [by left|]. right. by constructor.
      * intros [?|Hf]; [by left|]. right.
        inversion Hf; subst; [contradiction|done].
Qed.

(* the links of the children are appended one child after the other *)
Lemma handleNode_children cs :
  Forall (λ c, ∀ links v,
            v ∈ worker.handleNode c links ↔
            v ∈ links ∨ ∃ n, InTree n c ∧ AnchorHref n v) cs →
  ∀ links v,
    v ∈ foldl (λ links n, worker.handleNode n links) links cs ↔
    v ∈ links ∨ ∃ c n, c ∈ cs ∧ InTree n c ∧ AnchorHref n v.
Proof.
  induction 1 as [|c cs Hc _ IH]; intros links v; simpl.
  - split; [by left|]. intros [?|(c & n & Hin & _)]; [done|].
    by apply elem_of_nil in Hin.
  - rewrite IH, Hc. split.
    + intros [[?|(n & Hn & Ha)]|(c' & n & Hc' & Hn & Ha)].
      * by left.
      * right. exists c, n. split; [left|done].
      * right. exists c', n. split; [by right|done].
    + intros [?|(c' & n & Hc' & Hn & Ha)]; [by left; left|].
      apply elem_of_cons in Hc' as [-> | Hc'].
      * left; right. by exists n.
      * right. by exists c', n.
Qed.

(** The links that the traversal appends are the hrefs of the anchors of the
    tree. *)
Lemma handleNode_elem node :
  ∀ links v,
    v ∈ worker.handleNode node links ↔
    v ∈ links ∨ ∃ n, InTree n node ∧ AnchorHref n v.
Proof.
  induction node as [t d a cs IH] using Node_ind. intros links v.
  change (worker.handleNode (mkNode t d a cs) links) with
    (foldl (λ links n, worker.handleNode n links)
       (if decide (t = ElementNode) then
          if decide (strings_ToLower d = "a")
          then worker.appendHref a links else links
        else links) cs).
  rewrite (handleNode_children cs IH).
  set (root := mkNode t d a cs).
  assert (Hroot : (∃ n, InTree n root ∧ AnchorHref n v) ↔
                  AnchorHref root v ∨ ∃ c n, c ∈ cs ∧ InTree n c ∧ AnchorHref n v).
  { split.
    - intros (n & Hn & Ha). apply InTree_inv in Hn as [-> | (c & Hc & Hn)].
      + by left.
      + right. by exists c, n.
    - intros [Ha|(c & n & Hc & Hn & Ha)].
      + exists root. split; [constructor|done].
      + exists n. split; [|done]. by apply InTree_child with c. }
  rewrite Hroot. unfold AnchorHref at 2. simpl.
  destruct (decide (t = ElementNode)) as [Ht|Ht].
  - destruct (decide (strings_ToLower d = "a")) as [Hd|Hd].
    + rewrite appendHref_elem. tauto.
    + tauto.
  - tauto.
Qed.

Lemma DedupeStrings_NoDup l : NoDup (util.DedupeStrings l).
Proof. unfold util.DedupeStrings. apply NoDup_elements. Qed.

Lemma DedupeStrings_elem l v : v ∈ util.DedupeStrings l ↔ v ∈ l.
Proof. unfold util.DedupeStrings. by rewrite elem_of_elements, elem_of_list_to_set. Qed.

(** C2: for a body that parses to a tree, GetLinks returns, without changing
    the state, a list with no duplicate whose members are exactly the href
    values of the anchor elements of the tree. *)
Theorem GetLinks_anchors_nodup (body : Reader) (tree : Node) (st : St) :
  html_Parse body = inl tree →
  ∃ links,
    worker.GetLinks body st = Returned (links, st)
    ∧ NoDup links
    ∧ ∀ v, v ∈ links ↔ ∃ n, InTree n tree ∧ AnchorHref n v.
Proof.
  intros Hparse. exists (util.DedupeStrings (worker.handleNode tree [])).
  split; [|split].
  - unfold worker.GetLinks. by rewrite Hparse.
  - apply DedupeStrings_NoDup.
  - intros v. rewrite DedupeStrings_elem, handleNode_elem.
    split; [|by right]. intros [Hnil|?]; [|done]. by apply elem_of_nil in Hnil.
Qed.

(** C4: when parsing the body fails, GetLinks returns normally, with no link,
    after logging the failure, and Handle still runs to its call of the
    adder, with no URL. *)
Theorem GetLinks_parse_failure `{NetURL} (w : worker.HTMLWorker St)
    (base : URL) (body : Reader) (err : error) (st : St) :
  html_Parse body = inr err →
  let st' := emit (Logged LogInfo ("Unable to parse HTML document: " +:+ err)) st in
  worker.GetLinks body st = Returned ([], st')
  ∧ worker.Handle w base body st = worker.adder w [] st'.
Proof.
  intros Hparse st'.
  assert (Hget : worker.GetLinks body st = Returned ([], st')).
  { unfold worker.GetLinks. by rewrite Hparse. }
  split; [done|]. unfold worker.Handle.
  by rewrite (GoM_bind_step _ _ _ _ _ Hget).
Qed.

End GetLinksSpec.

(** ** HTML worker: handing the links to the adder *)
Section HandleLinks.
Context `{Unicode} `{NetURL} `{HTMLParser}.
Context {St : Type} `{Traced St}.

Lemma GetLinks_returns (body : Reader) (st : St) :
  ∃ links st1, worker.GetLinks body st = Returned (links, st1).
Proof.
  unfold worker.GetLinks. destruct (html_Parse body) as [tree|err].
  - by eexists _, _.
  - by eexists _, _.
Qed.

(** The loop of Handle never stops early: it goes through all the links,
    logs those that do not parse and keeps the others, resolved, in order. *)
Lemma Handle_loop_eq (base : URL) (links : list string) :
  ∀ (found : list URL) (st : St),
    worker.Handle_loop base links found st =
    Returned (found ++ omap (resolved base) links,
              emitAll (omap parseFailure links) st).
Proof.
  induction links as [|l rest IH]; intros found st; simpl.
  - by rewrite app_nil_r.
  - unfold resolved at 1, parseFailure at 1.
    destruct (url_Parse l) as [u|err]; simpl.
    + by rewrite IH, <- app_assoc.
    + unfold mbind, GoM_bind, Logf, modify. by rewrite IH.
Qed.

(** C3: Handle goes through every link that GetLinks extracted; a link that
    does not parse is logged and skipped, every other one is resolved against
    the URL of the document, and the adder is called once, with all the
    resolved URLs: Handle is that one call, in the state where the failures
    have been logged. *)
Theorem Handle_skips_malformed (w : worker.HTMLWorker St) (base : URL)
    (body : Reader) (st : St) :
  ∃ links st1,
    worker.GetLinks body st = Returned (links, st1)
    ∧ worker.Handle w base body st =
      worker.adder w (omap (resolved base) links)
        (emitAll (omap parseFailure links) st1)
    ∧ (∀ l u, l ∈ links → url_Parse l = inl u →
         ResolveReference base u ∈ omap (resolved base) links)
    ∧ (∀ u', u' ∈ omap (resolved base) links →
         ∃ l u, l ∈ links ∧ url_Parse l = inl u ∧ u' = ResolveReference base u)
    ∧ (∀ l err, l ∈ links → url_Parse l = inr err →
         Logged LogInfo ("Error parsing URL (" +:+ l +:+ "): " +:+ err)
           ∈ omap parseFailure links).
Proof.
  destruct (GetLinks_returns body st) as (links & st1 & Hget).
  exists links, st1. split; [done|]. split; [|split; [|split]].
  - unfold worker.Handle. rewrite (GoM_bind_step _ _ _ _ _ Hget).
    by rewrite (GoM_bind_step _ _ _ _ _ (Handle_loop_eq base links [] st1)).
  - intros l u Hl Hu. apply list_elem_of_omap. exists l. split; [done|].
    unfold resolved. by rewrite Hu.
  - intros u' Hu'. apply list_elem_of_omap in Hu' as (l & Hl & Hres).
    unfold resolved in Hres. destruct (url_Parse l) as [u|err] eqn:Hu; [|done].
    exists l, u. by simplify_eq.
  - intros l err Hl Herr. apply list_elem_of_omap. exists l. split; [done|].
    unfold parseFailure. by rewrite Herr.
Qed.

End HandleLinks.

(** On the sample document: two anchors share one href, one anchor has no
    href, one has two (the first counts), and the href of an element that is
    no anchor is left out. *)
Lemma GetLinks_anchors_nodup_sample :
  let body : @Reader Sample.htmlParser := inl Sample.document in
  @html_Parse Sample.htmlParser body = inl Sample.document
  ∧ ∃ links,
      @worker.GetLinks Sample.unicode Sample.htmlParser _ Sample.recorder_traced
        body ([], []) = Returned (links, ([], []))
      ∧ NoDup links
      ∧ ∀ v, v ∈ links ↔
             ∃ n, InTree n Sample.document ∧ @AnchorHref Sample.unicode n v.
Proof.
  split; [reflexivity|].
  apply (@GetLinks_anchors_nodup Sample.unicode Sample.htmlParser _
           Sample.recorder_traced (inl Sample.document) Sample.document ([], [])).
  reflexivity.
Defined.

Example GetLinks_sample :
  @worker.GetLinks Sample.unicode Sample.htmlParser _ Sample.recorder_traced
    (inl Sample.document) ([], [])
  = Returned (["/about"; ":bad"], ([], [])).
Proof. by vm_compute. Qed.

Lemma GetLinks_parse_failure_sample :
  let body : @Reader Sample.htmlParser := inr "unexpected EOF" in
  let st' := ([Logged LogInfo "Unable to parse HTML document: unexpected EOF"], []) in
  @html_Parse Sample.htmlParser body = inr "unexpected EOF"
  ∧ @worker.GetLinks Sample.unicode Sample.htmlParser _ Sample.recorder_traced
      body ([], []) = Returned ([], st')
  ∧ @worker.Handle Sample.unicode Sample.netURL Sample.htmlParser _
      Sample.recorder_traced Sample.recorder Sample.base body ([], [])
    = worker.adder Sample.recorder [] st'.
Proof.
  split; [reflexivity|].
  apply (@GetLinks_parse_failure Sample.unicode Sample.htmlParser _
           Sample.recorder_traced Sample.netURL Sample.recorder Sample.base
           (inr "unexpected EOF") "unexpected EOF" ([], [])).
  reflexivity.
Defined.

(* the malformed link is logged, the other one is resolved and added, in one
   call of the adder; a body that does not parse gives one call, with no URL *)
Example Handle_sample :
  @worker.Handle Sample.unicode Sample.netURL Sample.htmlParser _
    Sample.recorder_traced Sample.recorder Sample.base (inl Sample.document)
    ([], [])
  = Returned ((), ([Logged LogInfo "Error parsing URL (:bad): missing protocol scheme"],
                   [[set_Path "/about" Sample.base]]))
  ∧ @worker.Handle Sample.unicode Sample.netURL Sample.htmlParser _
      Sample.recorder_traced Sample.recorder Sample.base (inr "unexpected EOF")
      ([], [])
    = Returned ((), ([Logged LogInfo "Unable to parse HTML document: unexpected EOF"],
                     [[]])).
Proof. by vm_compute. Qed.

(** ** Mangler *)

Lemma prefix_app (s t : string) : String.prefix s (s +:+ t) = true.
Proof.
  induction s as [|c s IH]; simpl; [by destruct t|].
  destruct (ascii_dec c c); [done|congruence].
Qed.

Lemma prefix_refl (s : string) : String.prefix s s = true.
Proof.
  induction s as [|c s IH]; simpl; [done|].
  destruct (ascii_dec c c); [done|congruence].
Qed.

Lemma strings_Contains_prefix (s sub : string) :
  String.prefix sub s = true → strings_Contains s sub = true.
Proof.
  intros Hp.
  assert (Hunfold : strings_Contains s sub =
                    String.prefix sub s ||
                    match s with
                    | EmptyString => false
                    | String _ s' => strings_Contains s' sub
                    end) by by destruct s.
  by rewrite Hunfold, Hp.
Qed.

Lemma strings_Contains_refl (s : string) : strings_Contains s s = true.
Proof.
  apply strings_Contains_prefix, prefix_refl.
Qed.

Lemma length_app_string (s t : string) :
  String.length (s +:+ t) = (String.length s + String.length t)%nat.
Proof. induction s as [|c s IH]; simpl; [done|]. by rewrite IH. Qed.

(* a variant is longer than the name it is made from *)
Lemma variant_neq_name (name ext : string) : name +:+ "." +:+ ext ≠ name.
Proof.
  intros Heq. apply (f_equal String.length) in Heq.
  rewrite length_app_string in Heq. simpl in Heq. lia.
Qed.

Section MangleSpec.
Variable Mangle_withExtension : string → list string → gset string.

Local Abbreviation Mangle := (worker.Mangle Mangle_withExtension).

(** C5: for a name with no extension delimiter, Mangle returns the set made
    of the name and of name.ext for every extension; every variant contains
    the name; there are as many variants besides the name as there are
    extensions when these are duplicate-free; with no extension the set is
    the name alone; and equal inputs give equal sets. *)
Theorem Mangle_bare_name (name : string) (extensions : list string) :
  strings_Contains name "." = false →
  Mangle name extensions
    = {[ name ]} ∪ list_to_set ((λ ext, name +:+ "." +:+ ext) <$> extensions)
  ∧ (∀ r, r ∈ Mangle name extensions ↔
          r = name ∨ ∃ ext, ext ∈ extensions ∧ r = name +:+ "." +:+ ext)
  ∧ (∀ r, r ∈ Mangle name extensions → strings_Contains r name = true)
  ∧ (NoDup extensions →
     size (Mangle name extensions) = S (length extensions))
  ∧ Mangle name [] = {[ name ]}
  ∧ (∀ name' extensions', name' = name → extensions' = extensions →
       Mangle name' extensions' = Mangle name extensions).
Proof.
  intros Hbare.
  assert (Heq : ∀ exts, Mangle name exts
    = {[ name ]} ∪ list_to_set ((λ ext, name +:+ "." +:+ ext) <$> exts)).
  { intros exts. unfold worker.Mangle. by rewrite Hbare. }
  assert (Hmem : ∀ r, r ∈ Mangle name extensions ↔
          r = name ∨ ∃ ext, ext ∈ extensions ∧ r = name +:+ "." +:+ ext).
  { intros r. rewrite Heq, elem_of_union, elem_of_singleton,
      elem_of_list_to_set, list_elem_of_fmap.
    split; intros [?|(ext & ? & ?)]; eauto. }
  split; [apply Heq|]. split; [exact Hmem|]. split; [|split; [|split]].
  - intros r [->|(ext & _ & ->)]%Hmem.
    + apply strings_Contains_refl.
    + apply strings_Contains_prefix, prefix_app.
  - intros Hnodup. rewrite Heq, size_union, size_singleton.
    + rewrite size_list_to_set, length_fmap; [done|].
      apply NoDup_fmap_2; [|done]. intros e1 e2 He.
      by apply (inj (String.app name)), (inj (String.app ".")) in He.
    + intros r Hr1 Hr2. apply elem_of_singleton in Hr1 as ->.
      apply elem_of_list_to_set, list_elem_of_fmap in Hr2 as (ext & Hr & _).
      exact (variant_neq_name name ext (eq_sym Hr)).
  - rewrite Heq. simpl. apply (right_id_L ∅ (∪)).
  - by intros name' extensions' -> ->.
Qed.

End MangleSpec.

Lemma Mangle_bare_name_sample :
  let Mangle := worker.Mangle (λ _ _, ∅) in
  strings_Contains "index" "." = false
  ∧ Mangle "index" ["html"; "php"]
    = {[ "index" ]} ∪ list_to_set ((λ ext, "index" +:+ "." +:+ ext) <$> ["html"; "php"])
  ∧ (∀ r, r ∈ Mangle "index" ["html"; "php"] ↔
          r = "index" ∨ ∃ ext, ext ∈ ["html"; "php"] ∧ r = "index" +:+ "." +:+ ext)
  ∧ (∀ r, r ∈ Mangle "index" ["html"; "php"] → strings_Contains r "index" = true)
  ∧ (NoDup ["html"; "php"] →
     size (Mangle "index" ["html"; "php"]) = S (length ["html"; "php"]))
  ∧ Mangle "index" [] = {[ "index" ]}
  ∧ (∀ name' extensions', name' = "index" → extensions' = ["html"; "php"] →
       Mangle name' extensions' = Mangle "index" ["html"; "php"]).
Proof.
  split; [reflexivity|].
  apply (Mangle_bare_name (λ _ _, ∅) "index" ["html"; "php"]). reflexivity.
Defined.

Example Mangle_sample :
  worker.Mangle (λ _ _, ∅) "index" ["html"; "php"; "html"]
    = {[ "index"; "index.html"; "index.php" ]}
  ∧ size (worker.Mangle (λ _ _, ∅) "index" ["html"; "php"; "html"]) = 3%nat
  ∧ worker.Mangle (λ _ _, ∅) "foo" [] = {[ "foo" ]}.
Proof. repeat split; by vm_compute. Qed.

(** ** Work queue *)
Section WorkQueueSpec.
Variable normKey : URL → string.

Local Abbreviation add1 := (workqueue.add1 normKey).
Local Abbreviation Add := (workqueue.Add normKey).
Local Abbreviation AddCalls := (workqueue.AddCalls normKey).

(* the keys of the URLs of a list *)
Local Abbreviation keys urls := (list_to_set (normKey <$> urls) : gset string).

Lemma add1_seen_drop q u :
  normKey u ∈ workqueue.seen q → add1 q u = q.
Proof. intros Hin. unfold workqueue.add1. by rewrite decide_True. Qed.

Lemma add1_fresh q u :
  normKey u ∉ workqueue.seen q →
  workqueue.seen (add1 q u) = {[ normKey u ]} ∪ workqueue.seen q
  ∧ workqueue.pending (add1 q u) = S (workqueue.pending q)
  ∧ workqueue.queue (add1 q u) = workqueue.queue q ++ [u].
Proof. intros Hin. unfold workqueue.add1. by rewrite decide_False. Qed.

(** One Add: the keys are marked seen, and the pending count grows by the
    number of keys that were not seen before. *)
Lemma Add_effect urls :
  ∀ q,
    workqueue.seen (Add urls q) = workqueue.seen q ∪ keys urls
    ∧ workqueue.pending (Add urls q)
      = (workqueue.pending q + size (keys urls ∖ workqueue.seen q))%nat.
Proof.
  induction urls as [|u urls IH]; intros q.
  - simpl. split; [by rewrite (right_id_L ∅ (∪))|].
    replace ((∅ : gset string) ∖ workqueue.seen q) with (∅ : gset string)
      by set_solver.
    rewrite size_empty. lia.
  - change (Add (u :: urls) q) with (Add urls (add1 q u)).
    destruct (IH (add1 q u)) as [IHs IHp]. rewrite IHs, IHp.
    rewrite fmap_cons, list_to_set_cons.
    destruct (decide (normKey u ∈ workqueue.seen q)) as [Hin|Hin].
    + rewrite (add1_seen_drop q u Hin). split; [set_solver|].
      f_equal. f_equal. set_solver.
    + destruct (add1_fresh q u Hin) as (-> & -> & _). split; [set_solver|].
      replace (({[normKey u]} ∪ keys urls) ∖ workqueue.seen q)
        with ({[normKey u]} ∪ keys urls ∖ ({[normKey u]} ∪ workqueue.seen q)).
      * assert (Hdisj : ({[normKey u]} : gset string)
                        ## keys urls ∖ ({[normKey u]} ∪ workqueue.seen q))
          by set_solver.
        rewrite (size_union _ _ Hdisj), size_singleton. lia.
      * apply set_eq. intros k. rewrite !elem_of_union, !elem_of_difference,
          !elem_of_union, !elem_of_singleton.
        destruct (decide (k = normKey u)) as [->|]; naive_solver.
Qed.

Lemma AddCalls_concat calls :
  ∀ q, AddCalls calls q = Add (concat calls) q.
Proof.
  induction calls as [|urls calls IH]; intros q; simpl; [done|].
  rewrite IH. unfold workqueue.Add. by rewrite foldl_app.
Qed.

(** C8: after any sequence of Add calls on a new queue, the pending count is
    the number of distinct keys added, and the seen set is the set of these
    keys; from any queue, the count grows by the number of distinct keys not
    seen before; and adding a URL whose key is seen changes nothing. *)
Theorem Add_pending_counts_distinct_keys (calls : list (list URL)) :
  workqueue.pending (AddCalls calls workqueue.NewWorkQueue)
    = size (keys (concat calls))
  ∧ workqueue.seen (AddCalls calls workqueue.NewWorkQueue) = keys (concat calls)
  ∧ (∀ q, workqueue.pending (AddCalls calls q)
          = (workqueue.pending q
             + size (keys (concat calls) ∖ workqueue.seen q))%nat)
  ∧ (∀ q u, normKey u ∈ workqueue.seen q → Add [u] q = q).
Proof.
  split; [|split; [|split]].
  - rewrite AddCalls_concat.
    destruct (Add_effect (concat calls) workqueue.NewWorkQueue) as [_ ->].
    simpl. by rewrite difference_empty_L.
  - rewrite AddCalls_concat.
    destruct (Add_effect (concat calls) workqueue.NewWorkQueue) as [-> _].
    simpl. by rewrite (left_id_L ∅ (∪)).
  - intros q. rewrite AddCalls_concat. apply Add_effect.
  - intros q u Hin. simpl. by apply add1_seen_drop.
Qed.

End WorkQueueSpec.

(* four calls that add three distinct keys, the key being host and path *)
Example Add_sample :
  let u p := set_Path p Sample.base in
  let q := workqueue.AddCalls Sample.key
             [[u "/a"; u "/b"]; [u "/a"]; []; [u "/b"; u "/c"; u "/a"]]
             workqueue.NewWorkQueue in
  workqueue.pending q = 3%nat
  ∧ workqueue.queue q = [u "/a"; u "/b"; u "/c"]
  ∧ workqueue.Add Sample.key [u "/b"] q = q.
Proof. by vm_compute. Qed.

(** ** Settings: validation *)

(** C7: Validate returns an error exactly when the list of base URLs is
    empty, and never changes the settings; with a base URL it returns no
    error and sends nothing out. *)
Theorem Validate_error_iff_no_BaseURLs (w : settings.World) :
  ∃ err w',
    settings.Validate w = Returned (err, w')
    ∧ (err ≠ None ↔ settings.BaseURLs (settings.scanSettings w) = [])
    ∧ settings.scanSettings w' = settings.scanSettings w
    ∧ (settings.BaseURLs (settings.scanSettings w) = [] →
       err = Some "URL is required.")
    ∧ (settings.BaseURLs (settings.scanSettings w) ≠ [] → err = None ∧ w' = w).
Proof.
  unfold settings.Validate, settings.flagError, mbind, GoM_bind, gets, modify,
    mret, GoM_ret.
  destruct (settings.BaseURLs (settings.scanSettings w)) as [|b bs] eqn:Hurls;
    simpl.
  - eexists _, _. split; [reflexivity|]. simpl. by repeat split.
  - exists None, w. split; [reflexivity|]. by repeat split.
Qed.

Example Validate_sample :
  settings.Validate (Sample.world (settings.set_BaseURLs [] (@settings.defaultSettings Sample.platform)))
  = Returned (Some "URL is required.",
      settings.set_trace [StderrWrite ("Usage:" +:+ settings.newline); FlagPrintDefaults]
        (Sample.world (settings.set_BaseURLs [] (@settings.defaultSettings Sample.platform))))
  ∧ settings.Validate (Sample.world (settings.set_BaseURLs ["http://example.test"] (@settings.defaultSettings Sample.platform)))
    = Returned (None, Sample.world (settings.set_BaseURLs ["http://example.test"] (@settings.defaultSettings Sample.platform))).
Proof. split; reflexivity. Qed.

(** ** Settings: the int slice flag *)
Section IntSliceFlagSpec.
Context `{Unicode} `{Platform}.
Context {M : Type}.

Lemma IntSliceFlag_Set_loop_inr vs :
  ∀ ints err,
    settings.IntSliceFlag_Set_loop vs ints = inr err →
    ∃ v, v ∈ vs ∧ failsToParse v.
Proof.
  induction vs as [|v rest IH]; intros ints err; simpl; [done|].
  destruct (strconv_Atoi (strings_TrimSpace v)) as [i|] eqn:Hv.
  - intros (v' & Hin & Hfail)%IH. exists v'. split; [by right|done].
  - intros _. exists v. split; [by left|done].
Qed.

Lemma IntSliceFlag_Set_loop_inl vs :
  ∀ ints result,
    settings.IntSliceFlag_Set_loop vs ints = inl result →
    ∃ parsed, Forall2 parsesTo vs parsed ∧ result = ints ++ parsed.
Proof.
  induction vs as [|v rest IH]; intros ints result; simpl.
  - intros [= <-]. exists []. split; [constructor|by rewrite app_nil_r].
  - destruct (strconv_Atoi (strings_TrimSpace v)) as [i|] eqn:Hv; [|done].
    intros (parsed & Hall & ->)%IH. exists (i :: parsed).
    split; [by constructor|by rewrite <- app_assoc].
Qed.

(** C9: through a pointer that is not nil, Set returns an error exactly when
    some comma-separated component does not parse as an int once trimmed; on
    an error nothing is written; with no error the slice pointed to holds the
    ints of the components, in their order. *)
Theorem IntSliceFlag_Set_spec (f : settings.IntSliceFlag M)
    (p : Ptr M (list Z)) (value : string) (m : M) :
  settings.IntSliceFlag_slice f = Some p →
  (∀ ints m0, deref p (assign p ints m0) = ints) →
  ∃ err m',
    settings.IntSliceFlag_Set f value m = Returned (err, m')
    ∧ (err ≠ None ↔ ∃ v, v ∈ strings_Split_comma value ∧ failsToParse v)
    ∧ (err ≠ None → m' = m)
    ∧ (err = None →
       ∃ ints, Forall2 parsesTo (strings_Split_comma value) ints
               ∧ m' = assign p ints m ∧ deref p m' = ints).
Proof.
  intros Hp Hlens. unfold settings.IntSliceFlag_Set. rewrite Hp.
  destruct (settings.IntSliceFlag_Set_loop (strings_Split_comma value) [])
    as [ints|err] eqn:Hloop.
  - apply IntSliceFlag_Set_loop_inl in Hloop as (parsed & Hall & ->).
    exists None, (assign p parsed m). split; [reflexivity|].
    split; [|split; [done|]].
    + split; [done|]. intros (v & Hin & Hfail).
      apply list_elem_of_lookup in Hin as [k Hk].
      destruct (Forall2_lookup_l _ _ _ _ _ Hall Hk) as (i & _ & Hi).
      unfold failsToParse, parsesTo in *. congruence.
    + intros _. exists parsed. by rewrite Hlens.
  - exists (Some err), m. split; [reflexivity|]. split; [|split; [done|done]].
    split; [|done]. intros _. by apply IntSliceFlag_Set_loop_inr in Hloop.
Qed.

(** Through a nil pointer, Set still returns the error of a component that
    does not parse, and panics when every component parses. *)
Lemma IntSliceFlag_Set_nil (f : settings.IntSliceFlag M) (value : string) (m : M) :
  settings.IntSliceFlag_slice f = None →
  (∃ err, settings.IntSliceFlag_Set f value m = Returned (Some err, m))
  ∨ settings.IntSliceFlag_Set f value m = Panicked settings.nilDeref.
Proof.
  intros Hnil. unfold settings.IntSliceFlag_Set. rewrite Hnil.
  destruct (settings.IntSliceFlag_Set_loop _ _) as [ints|err]; [by right|].
  left. by exists err.
Qed.

End IntSliceFlagSpec.

Lemma IntSliceFlag_Set_spec_sample :
  let f := {| settings.IntSliceFlag_slice := Some settings.addr_SpiderCodes |} in
  let m := @settings.defaultSettings Sample.platform in
  settings.IntSliceFlag_slice f = Some settings.addr_SpiderCodes
  ∧ (∀ ints m0,
       deref settings.addr_SpiderCodes (assign settings.addr_SpiderCodes ints m0)
       = ints)
  ∧ ∃ err m',
      @settings.IntSliceFlag_Set Sample.unicode Sample.platform _ f
        "200, 301,404" m = Returned (err, m')
      ∧ (err ≠ None ↔
         ∃ v, v ∈ strings_Split_comma "200, 301,404"
              ∧ @failsToParse Sample.unicode Sample.platform v)
      ∧ (err ≠ None → m' = m)
      ∧ (err = None →
         ∃ ints,
           Forall2 (@parsesTo Sample.unicode Sample.platform)
             (strings_Split_comma "200, 301,404") ints
           ∧ m' = assign settings.addr_SpiderCodes ints m
           ∧ deref settings.addr_SpiderCodes m' = ints).
Proof.
  split; [reflexivity|]. split; [reflexivity|].
  apply (@IntSliceFlag_Set_spec Sample.unicode Sample.platform _
           {| settings.IntSliceFlag_slice := Some settings.addr_SpiderCodes |}
           settings.addr_SpiderCodes "200, 301,404"
           (@settings.defaultSettings Sample.platform));
    reflexivity.
Defined.

Example IntSliceFlag_Set_sample :
  let f := {| settings.IntSliceFlag_slice := Some settings.addr_SpiderCodes |} in
  let m := @settings.defaultSettings Sample.platform in
  let Set_ := @settings.IntSliceFlag_Set Sample.unicode Sample.platform _ f in
  Set_ "200, 301,404" m = Returned (None, settings.set_SpiderCodes [200; 301; 404] m)
  ∧ Set_ " -1 ,+2,007" m = Returned (None, settings.set_SpiderCodes [-1; 2; 7] m)
  ∧ Set_ "200,3x1,404" m = Returned (Some "Unable to parse 3x1 as int.", m)
  ∧ Set_ "200, ,404" m = Returned (Some "Unable to parse   as int.", m)
  ∧ Set_ "" m = Returned (Some "Unable to parse  as int.", m)
  ∧ Set_ "9223372036854775807" m
    = Returned (None, settings.set_SpiderCodes [9223372036854775807] m)
  ∧ Set_ "9223372036854775808" m
    = Returned (Some "Unable to parse 9223372036854775808 as int.", m)
  ∧ Set_ "-9223372036854775808" m
    = Returned (None, settings.set_SpiderCodes [-9223372036854775808] m).
Proof. by vm_compute. Qed.

(** ** Settings: scopes *)
Section GetScopesSpec.
Context `{NetURL}.

Lemma GetScopes_loop_spec baseURLs :
  ∀ (i : nat) (scopes : list (option URL)) (w : settings.World),
    (i + length baseURLs ≤ length scopes)%nat →
    ∃ r w',
      settings.GetScopes_loop i baseURLs scopes w = Returned (r, w')
      ∧ settings.scanSettings w' = settings.scanSettings w
      ∧ ((∃ err, r = inr err) ↔ ∃ b, b ∈ baseURLs ∧ failsToParseURL b)
      ∧ ∀ scopes', r = inl scopes' →
          length scopes' = length scopes
          ∧ (∀ k, (k < i)%nat → scopes' !! k = scopes !! k)
          ∧ ∀ j b, baseURLs !! j = Some b →
              ∃ parsed, url_Parse b = inl parsed
                        ∧ scopes' !! (i + j)%nat = Some (Some (scopeOf parsed)).
Proof.
  induction baseURLs as [|b rest IH]; intros i scopes w Hlen; simpl.
  - exists (inl scopes), w. split; [done|]. split; [done|]. split.
    + split; [by intros [err ?]|]. intros (b & Hb & _). by apply elem_of_nil in Hb.
    + intros scopes' [= <-]. by repeat split.
  - destruct (url_Parse b) as [parsed|err] eqn:Hb.
    + simpl in Hlen. fold (scopeOf parsed).
      destruct (IH (S i) (<[i := Some (scopeOf parsed)]> scopes)
                  (emit (Logged LogDebug ("Added BaseURL: " +:+ URL_String (scopeOf parsed))) w))
        as (r & w' & Hrun & Hset & Herr & Hok).
      { rewrite length_insert. lia. }
      exists r, w'. split.
      { unfold mbind, GoM_bind, Logf, modify. exact Hrun. }
      split; [by rewrite Hset|]. split.
      * rewrite Herr. split.
        -- intros (b' & Hin & Hfail). exists b'. split; [by right|done].
        -- intros (b' & Hin & Hfail). apply elem_of_cons in Hin as [->|Hin].
           ++ destruct Hfail as [err Herr']. congruence.
           ++ by exists b'.
      * intros scopes' Hr. destruct (Hok scopes' Hr) as (Hl & Hkeep & Hset').
        rewrite length_insert in Hl. split; [done|]. split.
        -- intros k Hk. rewrite Hkeep by lia.
           apply list_lookup_insert_ne. lia.
        -- intros [|j] b' Hj; simpl in Hj.
           ++ injection Hj as <-. exists parsed. split; [done|].
              rewrite Nat.add_0_r, Hkeep by lia.
              apply list_lookup_insert_eq. lia.
           ++ destruct (Hset' j b' Hj) as (parsed' & Hp' & Hs').
              exists parsed'. split; [done|].
              by replace (i + S j)%nat with (S i + j)%nat by lia.
    + eexists _, w. split; [reflexivity|]. split; [done|]. split.
      * split; [|by eexists]. intros _. exists b. split; [by left|by exists err].
      * intros scopes' [=].
Qed.

(** C6: GetScopes returns an error exactly when some base URL does not
    parse; otherwise it returns as many scopes as there are base URLs, the
    scope at each index being the parsed base URL of that index, with the
    path / when the parsed path is empty.  The settings are not changed. *)
Theorem GetScopes_error_iff_unparsable (w : settings.World) :
  ∃ r w',
    settings.GetScopes w = Returned (r, w')
    ∧ settings.scanSettings w' = settings.scanSettings w
    ∧ ((∃ err, r = inr err) ↔
       ∃ b, b ∈ settings.BaseURLs (settings.scanSettings w) ∧ failsToParseURL b)
    ∧ ∀ scopes, r = inl scopes →
        length scopes = length (settings.BaseURLs (settings.scanSettings w))
        ∧ ∀ i b, settings.BaseURLs (settings.scanSettings w) !! i = Some b →
            ∃ parsed scope,
              url_Parse b = inl parsed
              ∧ scopes !! i = Some (Some scope)
              ∧ scope = scopeOf parsed
              ∧ Path scope ≠ ""
              ∧ (Path parsed = "" → Path scope = "/")
              ∧ (Path parsed ≠ "" → scope = parsed).
Proof.
  set (baseURLs := settings.BaseURLs (settings.scanSettings w)).
  destruct (GetScopes_loop_spec baseURLs 0 (replicate (length baseURLs) None) w)
    as (r & w' & Hrun & Hset & Herr & Hok).
  { rewrite length_replicate. lia. }
  exists r, w'. split; [exact Hrun|]. split; [done|]. split; [done|].
  intros scopes Hr. destruct (Hok scopes Hr) as (Hl & _ & Hat).
  rewrite length_replicate in Hl. split; [done|].
  intros i b Hi. destruct (Hat i b Hi) as (parsed & Hp & Hs).
  exists parsed, (scopeOf parsed). split; [done|]. split; [done|].
  split; [done|]. unfold scopeOf.
  destruct (decide (Path parsed = "")) as [He|He]; simpl; by repeat split.
Qed.

End GetScopesSpec.

(* a base URL with no path gets the path /; once a base URL does not parse,
   the scopes are dropped and the later base URLs are not looked at *)
Example GetScopes_sample :
  let w urls :=
    Sample.world (settings.set_BaseURLs urls (@settings.defaultSettings Sample.platform)) in
  let host := {| Scheme := ""; Opaque := ""; User := None; Host := "example.test";
                 Path := ""; RawPath := ""; RawQuery := ""; Fragment := "" |} in
  @settings.GetScopes Sample.netURL (w ["//example.test"; "/admin"])
  = Returned (inl [Some (set_Path "/" host); Some (set_Path "/admin" Sample.emptyURL)],
              settings.set_trace
                [Logged LogDebug "Added BaseURL: //example.test/";
                 Logged LogDebug "Added BaseURL: /admin"]
                (w ["//example.test"; "/admin"]))
  ∧ @settings.GetScopes Sample.netURL (w ["//example.test"; ":bad"; "/admin"])
    = Returned (inr "Unable to parse BaseURL (:bad): missing protocol scheme",
                settings.set_trace [Logged LogDebug "Added BaseURL: //example.test/"]
                  (w ["//example.test"; ":bad"; "/admin"]))
  ∧ @settings.GetScopes Sample.netURL (w []) = Returned (inl [], w []).
Proof. by vm_compute. Qed.

(** ** Settings: the flags *)

Ltac bind_inv H :=
  apply GoM_bind_Returned in H as (? & ? & _ & H); cbv beta zeta in H.

Section InitFlagsSpec.
Context `{Platform}.
Variable LogLevelStrings : list string.

Local Abbreviation InitFlags := (settings.InitFlags LogLevelStrings).

(** With flagsSet set, InitFlags returns at once: no flag is registered, and
    no field of the settings is written. *)
Lemma InitFlags_when_set (w : settings.World) :
  settings.flagsSet (settings.scanSettings w) = true →
  InitFlags w = Returned ((), w).
Proof.
  intros Hset. unfold settings.InitFlags, mbind, GoM_bind, gets.
  by rewrite Hset.
Qed.

(** The registrations end by setting flagsSet, and nothing in between
    returns early. *)
Lemma InitFlags_register_sets (w w1 : settings.World) :
  settings.InitFlags_register LogLevelStrings w = Returned ((), w1) →
  settings.flagsSet (settings.scanSettings w1) = true.
Proof.
  intros Hrun. unfold settings.InitFlags_register in Hrun.
  cbv beta zeta in Hrun. repeat bind_inv Hrun.
  unfold modify in Hrun. by injection Hrun as <-.
Qed.

(** C10: once a call of InitFlags has returned, flagsSet is set, and every
    later call on the same settings returns at once and leaves the settings
    and the registered flags as they are: in the state w1 that the first call
    left, and in every later state w' of the program in which flagsSet still
    has the value of w1, whatever has been written in between to the other
    fields, to the registered flags and to the output; so for any number of
    calls. *)
Theorem InitFlags_idempotent (w w1 : settings.World) :
  InitFlags w = Returned ((), w1) →
  settings.flagsSet (settings.scanSettings w1) = true
  ∧ InitFlags w1 = Returned ((), w1)
  ∧ (∀ n, calls n InitFlags w1 = Returned ((), w1))
  ∧ ∀ w' : settings.World,
      settings.flagsSet (settings.scanSettings w')
      = settings.flagsSet (settings.scanSettings w1) →
      InitFlags w' = Returned ((), w')
      ∧ ∀ n, calls n InitFlags w' = Returned ((), w').
Proof.
  intros Hfirst.
  assert (Hset : settings.flagsSet (settings.scanSettings w1) = true).
  { destruct (settings.flagsSet (settings.scanSettings w)) eqn:Hw.
    - rewrite (InitFlags_when_set w Hw) in Hfirst. by injection Hfirst as <-.
    - unfold settings.InitFlags, mbind, GoM_bind, gets in Hfirst.
      rewrite Hw in Hfirst. by apply InitFlags_register_sets with w. }
  assert (Hcalls : ∀ w', settings.flagsSet (settings.scanSettings w') = true →
            ∀ n, calls n InitFlags w' = Returned ((), w')).
  { intros w' Hset' n. induction n as [|n IH]; simpl; [done|].
    by rewrite (GoM_bind_step _ _ _ _ _ (InitFlags_when_set w' Hset')). }
  split; [done|]. split; [by apply InitFlags_when_set|].
  split; [by apply Hcalls|].
  intros w' Hsame. rewrite Hset in Hsame.
  split; [by apply InitFlags_when_set|by apply Hcalls].
Qed.

End InitFlagsSpec.

Lemma InitFlags_idempotent_sample :
  let InitFlags := @settings.InitFlags Sample.platform ["DEBUG"; "INFO"; "WARNING"] in
  let later :=
    settings.set_scanSettings
      (settings.set_Threads 99 (settings.scanSettings afterInitFlags))
      afterInitFlags in
  InitFlags (Sample.world (@settings.defaultSettings Sample.platform))
    = Returned ((), afterInitFlags)
  ∧ (InitFlags later = Returned ((), later)
     ∧ ∀ n, calls n InitFlags later = Returned ((), later))
  ∧ settings.flagsSet (settings.scanSettings afterInitFlags) = true
  ∧ InitFlags afterInitFlags = Returned ((), afterInitFlags)
  ∧ (∀ n, calls n InitFlags afterInitFlags = Returned ((), afterInitFlags))
  ∧ ∀ w' : settings.World,
      settings.flagsSet (settings.scanSettings w')
      = settings.flagsSet (settings.scanSettings afterInitFlags) →
      InitFlags w' = Returned ((), w')
      ∧ ∀ n, calls n InitFlags w' = Returned ((), w').
Proof.
  split; [by vm_compute|].
  pose proof (@InitFlags_idempotent Sample.platform ["DEBUG"; "INFO"; "WARNING"]
                (Sample.world (@settings.defaultSettings Sample.platform))
                afterInitFlags) as Hlater.
  split; [|apply Hlater; by vm_compute].
  apply Hlater; by vm_compute.
Defined.

(* the first call registers the flags and writes their defaults; a call on
   another settings object panics, as the flags are registered already *)
Example InitFlags_sample :
  dom (settings.CommandLine afterInitFlags)
  = {[ "url"; "threads"; "workers"; "exclude"; "html"; "allow-upgrade";
       "sleep"; "logfile"; "wordlist"; "extensions"; "mangle"; "proxy";
       "timeout"; "format"; "outfile"; "loglevel"; "user-agent";
       "include-redirects"; "spider-codes"; "robots-mode"; "debug-cpuprof" ]}
  ∧ settings.Workers (settings.scanSettings afterInitFlags) = 8
  ∧ settings.ParseHTML (settings.scanSettings afterInitFlags) = true
  ∧ settings.OutputFormat (settings.scanSettings afterInitFlags) = "text"
  ∧ settings.UserAgent (settings.scanSettings afterInitFlags) = "WebBorer 0.01"
  ∧ settings.DefValue <$> settings.CommandLine afterInitFlags !! "spider-codes"
    = Some "200"
  ∧ settings.DefValue <$> settings.CommandLine afterInitFlags !! "robots-mode"
    = Some "ignore"
  ∧ @settings.NewScanSettings Sample.platform ["DEBUG"; "INFO"; "WARNING"]
      afterInitFlags = Panicked "flag redefined: url".
Proof. by vm_compute. Qed.

(** * Further properties *)

(** ** Split and Join, Atoi and Itoa *)

Lemma splitByte_length sep s : length (splitByte sep s) = S (countByte sep s).
Proof.
  induction s as [|c s IH]; simpl; [done|].
  destruct (decide (c = sep)); simpl; [by rewrite IH|].
  destruct (splitByte sep s) as [|h t]; simpl in *; lia.
Qed.

Lemma concat_cons_cons sep x y l :
  String.concat sep (x :: y :: l) = x +:+ sep +:+ String.concat sep (y :: l).
Proof. reflexivity. Qed.

Lemma Join_Split_comma s : strings_Join (strings_Split_comma s) "," = s.
Proof.
  unfold strings_Join, strings_Split_comma.
  induction s as [|c s IH]; simpl; [done|].
  pose proof (splitByte_length "," s) as Hlen.
  destruct (decide (c = ","%char)) as [->|Hc].
  - destruct (splitByte "," s) as [|h t]; [done|].
    rewrite concat_cons_cons, IH. reflexivity.
  - destruct (splitByte "," s) as [|h t]; [done|].
    destruct t as [|h' t]; simpl in *; [by rewrite IH|].
    rewrite <- IH. reflexivity.
Qed.

Lemma splitByte_no_sep sep s : countByte sep s = 0%nat → splitByte sep s = [s].
Proof.
  induction s as [|c s IH]; simpl; [done|].
  destruct (decide (c = sep)); [done|]. intros Hs. by rewrite IH.
Qed.

Lemma splitByte_app_sep sep x rest :
  countByte sep x = 0%nat →
  splitByte sep (x +:+ String sep rest) = x :: splitByte sep rest.
Proof.
  induction x as [|c x IH]; simpl.
  - intros _. by rewrite decide_True.
  - destruct (decide (c = sep)) as [|Hne]; [done|]. intros Hs.
    change (String c x +:+ String sep rest) with (String c (x +:+ String sep rest)).
    cbn [splitByte]. destruct (decide (c = sep)); [done|]. by rewrite IH.
Qed.

Lemma Split_Join_comma l :
  l ≠ [] → Forall (λ x, countByte "," x = 0%nat) l →
  strings_Split_comma (strings_Join l ",") = l.
Proof.
  unfold strings_Join, strings_Split_comma.
  induction l as [|x l IH]; [done|]. intros _ Hall.
  apply Forall_cons in Hall as [Hx Hl].
  destruct l as [|y l].
  - by apply splitByte_no_sep.
  - rewrite concat_cons_cons.
    change ("," +:+ String.concat "," (y :: l))
      with (String ","%char (String.concat "," (y :: l))).
    rewrite splitByte_app_sep by done. f_equal. by apply IH.
Qed.

(** digits *)
Lemma parseDigits_of_uint_acc d :
  ∀ acc : positive,
    parseDigits (Z.pos acc) (NilEmpty.string_of_uint d)
    = Some (Z.pos (Pos.of_uint_acc d acc)).
Proof.
  induction d; intros acc; simpl; [done|..];
    (rewrite <- IHd; f_equal; vm_compute byte_val; lia).
Qed.

Lemma parseDigits_of_uint d :
  parseDigits 0 (NilEmpty.string_of_uint d) = Some (Z.of_N (Pos.of_uint d)).
Proof.
  induction d; simpl; [done|exact IHd|..]; apply parseDigits_of_uint_acc.
Qed.

Lemma parseDigits_digits s : ∀ acc v,
  parseDigits acc s = Some v → allBytes isDigitByte s = true.
Proof.
  induction s as [|c s IH]; intros acc v; simpl; [done|].
  destruct (isDigitByte c); [|done]. apply IH.
Qed.

Lemma to_uint_string_nonempty p : NilEmpty.string_of_uint (Pos.to_uint p) ≠ "".
Proof.
  intros Hs. pose proof (DecimalPos.Unsigned.of_to p) as Hp.
  destruct (Pos.to_uint p); try discriminate.
Qed.

Lemma parseUint_to_uint p :
  parseUint (NilEmpty.string_of_uint (Pos.to_uint p)) = Some (Z.pos p).
Proof.
  pose proof (to_uint_string_nonempty p) as Hne.
  pose proof (parseDigits_of_uint (Pos.to_uint p)) as Hd.
  rewrite DecimalPos.Unsigned.of_to in Hd. unfold parseUint.
  by destruct (NilEmpty.string_of_uint (Pos.to_uint p)).
Qed.

Lemma Itoa_pos p : strconv_Itoa (Z.pos p) = NilEmpty.string_of_uint (Pos.to_uint p).
Proof.
  unfold strconv_Itoa. simpl. pose proof (to_uint_string_nonempty p).
  unfold NilZero.string_of_uint. by destruct (Pos.to_uint p).
Qed.

Lemma Itoa_neg p :
  strconv_Itoa (Z.neg p) = String "-" (NilEmpty.string_of_uint (Pos.to_uint p)).
Proof.
  unfold strconv_Itoa. simpl. pose proof (to_uint_string_nonempty p).
  unfold NilZero.string_of_uint. by destruct (Pos.to_uint p).
Qed.

Section AtoiItoa.
Context `{Platform}.

Lemma Atoi_Itoa z : fitsInt z → strconv_Atoi (strconv_Itoa z) = Some z.
Proof.
  unfold fitsInt. intros Hz. destruct z as [|p|p].
  - change (strconv_Itoa 0) with "0". unfold strconv_Atoi.
    rewrite !bool_decide_eq_false_2 by done.
    cbn [orb]. assert (parseUint "0" = Some 0) as -> by reflexivity.
    cbn [mbind option_bind].
    destruct (Z.leb_spec (2 ^ (IntSize - 1)) 0); [lia|done].
  - rewrite Itoa_pos. pose proof (parseUint_to_uint p) as Hp.
    assert (Hd : allBytes isDigitByte (NilEmpty.string_of_uint (Pos.to_uint p)) = true).
    { unfold parseUint in Hp.
      destruct (NilEmpty.string_of_uint (Pos.to_uint p)) eqn:Hs; [done|].
      by eapply parseDigits_digits. }
    unfold strconv_Atoi.
    destruct (NilEmpty.string_of_uint (Pos.to_uint p)) as [|c s] eqn:Hs; [done|].
    simpl in Hd. apply andb_true_iff in Hd as [Hc _].
    assert (c ≠ "-"%char) by (intros ->; done).
    assert (c ≠ "+"%char) by (intros ->; done).
    rewrite !bool_decide_eq_false_2 by done. cbn [orb]. rewrite Hp.
    cbn [mbind option_bind].
    destruct (Z.leb_spec (2 ^ (IntSize - 1)) (Z.pos p)); [lia|done].
  - rewrite Itoa_neg. unfold strconv_Atoi.
    rewrite (bool_decide_eq_true_2 ("-"%char = "-"%char)) by done.
    rewrite orb_true_r. rewrite parseUint_to_uint. cbn [mbind option_bind].
    destruct (Z.ltb_spec (2 ^ (IntSize - 1)) (Z.pos p)); [lia|done].
Qed.

End AtoiItoa.

Lemma Itoa_bytes z :
  ∃ c s, strconv_Itoa z = String c s
         ∧ (isDigitByte c = true ∨ c = "-"%char)
         ∧ allBytes isDigitByte s = true.
Proof.
  destruct z as [|p|p].
  - exists "0"%char, "". split; [done|]. split; [by left|done].
  - rewrite Itoa_pos. pose proof (parseUint_to_uint p) as Hp. unfold parseUint in Hp.
    destruct (NilEmpty.string_of_uint (Pos.to_uint p)) as [|c s]; [done|].
    apply parseDigits_digits in Hp. simpl in Hp.
    apply andb_true_iff in Hp as [? ?]. exists c, s.
    split; [done|]. split; [by left|done].
  - rewrite Itoa_neg. pose proof (parseUint_to_uint p) as Hp. unfold parseUint in Hp.
    destruct (NilEmpty.string_of_uint (Pos.to_uint p)) as [|c s] eqn:Hs; [done|].
    apply parseDigits_digits in Hp. exists "-"%char, (String c s).
    split; [done|]. split; [by right|done].
Qed.

Lemma digit_props c :
  isDigitByte c = true →
  (byte_val c <? RuneSelf)%N = true ∧ asciiSpace c = false ∧ c ≠ ","%char.
Proof.
  unfold isDigitByte, asciiSpace, RuneSelf. intros [H1 H2]%andb_true_iff.
  apply N.leb_le in H1, H2. split; [apply N.ltb_lt; lia|]. split.
  - destruct (byte_val c) as [|p] eqn:Hc; [done|].
    do 6 (destruct p as [p|p|]; try done); lia.
  - intros ->. vm_compute in H1. done.
Qed.


Lemma intByte_props c :
  isIntByte c = true →
  (byte_val c <? RuneSelf)%N = true ∧ asciiSpace c = false ∧ c ≠ ","%char.
Proof.
  unfold isIntByte. intros [Hd|Hm%bool_decide_eq_true]%orb_true_iff.
  - by apply digit_props.
  - subst c. by vm_compute.
Qed.

Lemma Itoa_intBytes z : allBytes isIntByte (strconv_Itoa z) = true.
Proof.
  destruct (Itoa_bytes z) as (c & s & -> & Hc & Hs). simpl.
  apply andb_true_iff. split.
  - unfold isIntByte. destruct Hc as [->| ->]; [done|]. by rewrite orb_true_r.
  - clear Hc. induction s as [|c' s IH]; simpl in *; [done|].
    apply andb_true_iff in Hs as [Hc' Hs]. unfold isIntByte at 1.
    by rewrite Hc', IH.
Qed.

Lemma intBytes_isASCII s : allBytes isIntByte s = true → isASCII s = true.
Proof.
  induction s as [|c s IH]; simpl; [done|].
  intros [Hc Hs]%andb_true_iff. destruct (intByte_props c Hc) as (-> & _ & _).
  by apply IH.
Qed.

Lemma intBytes_no_comma s : allBytes isIntByte s = true → countByte "," s = 0%nat.
Proof.
  induction s as [|c s IH]; simpl; [done|].
  intros [Hc Hs]%andb_true_iff. destruct (intByte_props c Hc) as (_ & _ & Hne).
  rewrite decide_False by done. by apply IH.
Qed.

Lemma intBytes_trimLeft s : allBytes isIntByte s = true → trimLeftSpace s = s.
Proof.
  destruct s as [|c s]; simpl; [done|].
  intros [Hc Hs]%andb_true_iff. by destruct (intByte_props c Hc) as (_ & -> & _).
Qed.

Lemma intBytes_trimRight s : allBytes isIntByte s = true → trimRightSpace s = s.
Proof.
  induction s as [|c s IH]; simpl; [done|].
  intros [Hc Hs]%andb_true_iff. rewrite (IH Hs).
  destruct (intByte_props c Hc) as (_ & -> & _). by destruct s.
Qed.

Section IntRoundTrip.
Context `{Unicode} `{Platform}.
Context {M : Type}.

Lemma TrimSpace_Itoa z : strings_TrimSpace (strconv_Itoa z) = strconv_Itoa z.
Proof.
  pose proof (Itoa_intBytes z) as Hb. unfold strings_TrimSpace.
  rewrite (intBytes_isASCII _ Hb), (intBytes_trimLeft _ Hb).
  by apply intBytes_trimRight.
Qed.

Lemma IntSliceFlag_Set_loop_Itoa l : ∀ ints,
  Forall fitsInt l →
  settings.IntSliceFlag_Set_loop (strconv_Itoa <$> l) ints = inl (ints ++ l).
Proof.
  induction l as [|z l IH]; intros ints Hall; simpl.
  - by rewrite app_nil_r.
  - apply Forall_cons in Hall as [Hz Hl].
    rewrite TrimSpace_Itoa, (Atoi_Itoa z Hz), IH by done.
    by rewrite <- app_assoc.
Qed.

Lemma tmpslice_fmap (l : list Z) : ∀ tmp,
  foldl (λ tmp v, tmp ++ [strconv_Itoa v]) tmp l = tmp ++ (strconv_Itoa <$> l).
Proof.
  induction l as [|z l IH]; intros tmp; simpl; [by rewrite app_nil_r|].
  by rewrite IH, <- app_assoc.
Qed.

(** X3: for a slice of ints that is not empty, Set on what String prints
    returns no error and stores the same ints; for the empty slice String
    prints the empty string, which Set refuses. *)
Theorem IntSliceFlag_String_Set_roundtrip (f : settings.IntSliceFlag M)
    (p : Ptr M (list Z)) (m : M) :
  settings.IntSliceFlag_slice f = Some p →
  (∀ ints m0, deref p (assign p ints m0) = ints) →
  Forall fitsInt (deref p m) →
  (deref p m ≠ [] →
   ∃ m', settings.IntSliceFlag_Set f (settings.IntSliceFlag_String f m) m
           = Returned (None, m')
         ∧ deref p m' = deref p m)
  ∧ (deref p m = [] →
     settings.IntSliceFlag_String f m = ""
     ∧ settings.IntSliceFlag_Set f (settings.IntSliceFlag_String f m) m
       = Returned (Some "Unable to parse  as int.", m)).
Proof.
  intros Hp Hlens Hfit. unfold settings.IntSliceFlag_String, settings.IntSliceFlag_Set.
  rewrite Hp, (tmpslice_fmap _ []). simpl. split.
  - intros Hne. rewrite Split_Join_comma.
    + rewrite (IntSliceFlag_Set_loop_Itoa _ [] Hfit). simpl.
      eexists. split; [reflexivity|]. apply Hlens.
    + by destruct (deref p m).
    + apply Forall_fmap, Forall_forall. intros z _. simpl.
      apply intBytes_no_comma, Itoa_intBytes.
  - intros ->. split; reflexivity.
Qed.

End IntRoundTrip.

(* the codes 200, 301 and -1 are printed and read back *)
Lemma IntSliceFlag_String_Set_roundtrip_sample :
  let f := {| settings.IntSliceFlag_slice := Some settings.addr_SpiderCodes |} in
  let m := settings.set_SpiderCodes [200; 301; -1]
             (@settings.defaultSettings Sample.platform) in
  let Set_ := @settings.IntSliceFlag_Set Sample.unicode Sample.platform _ f in
  let String_ := settings.IntSliceFlag_String f in
  String_ m = "200,301,-1"
  ∧ (deref settings.addr_SpiderCodes m ≠ [] →
     ∃ m', Set_ (String_ m) m = Returned (None, m')
           ∧ deref settings.addr_SpiderCodes m' = deref settings.addr_SpiderCodes m)
  ∧ (deref settings.addr_SpiderCodes m = [] →
     String_ m = ""
     ∧ Set_ (String_ m) m = Returned (Some "Unable to parse  as int.", m)).
Proof.
  split; [reflexivity|].
  apply (@IntSliceFlag_String_Set_roundtrip Sample.unicode Sample.platform _
           {| settings.IntSliceFlag_slice := Some settings.addr_SpiderCodes |}
           settings.addr_SpiderCodes
           (settings.set_SpiderCodes [200; 301; -1]
              (@settings.defaultSettings Sample.platform))).
  - reflexivity.
  - reflexivity.
  - repeat constructor; vm_compute; discriminate.
Defined.


Section StringSliceRoundTrip.
Context {M : Type}.

(** X1: Set through a pointer that is not nil never returns an error; String
    then prints the value that was set; the slice has one string more than
    the value has commas, so it is never empty. *)
Theorem StringSliceFlag_Set_String_roundtrip (f : settings.StringSliceFlag M)
    (p : Ptr M (list string)) (value : string) (m : M) :
  settings.StringSliceFlag_slice f = Some p →
  (∀ l m0, deref p (assign p l m0) = l) →
  ∃ m',
    settings.StringSliceFlag_Set f value m = Returned (None, m')
    ∧ settings.StringSliceFlag_String f m' = value
    ∧ length (deref p m') = S (countByte "," value)
    ∧ (countByte "," value = 0%nat → deref p m' = [value]).
Proof.
  intros Hp Hlens. unfold settings.StringSliceFlag_Set, settings.StringSliceFlag_String.
  rewrite Hp. eexists. split; [reflexivity|]. rewrite Hlens.
  split; [apply Join_Split_comma|]. split; [apply splitByte_length|].
  apply splitByte_no_sep.
Qed.

End StringSliceRoundTrip.

(* a value with an empty component *)
Lemma StringSliceFlag_Set_String_roundtrip_sample :
  let f := {| settings.StringSliceFlag_slice := Some settings.addr_BaseURLs |} in
  let m := @settings.defaultSettings Sample.platform in
  settings.StringSliceFlag_Set f "http://a/,,http://b/" m
    = Returned (None, settings.set_BaseURLs ["http://a/"; ""; "http://b/"] m)
  ∧ ∃ m',
      settings.StringSliceFlag_Set f "http://a/,,http://b/" m = Returned (None, m')
      ∧ settings.StringSliceFlag_String f m' = "http://a/,,http://b/"
      ∧ length (deref settings.addr_BaseURLs m')
        = S (countByte "," "http://a/,,http://b/")
      ∧ (countByte "," "http://a/,,http://b/" = 0%nat →
         deref settings.addr_BaseURLs m' = ["http://a/,,http://b/"]).
Proof.
  split; [reflexivity|].
  apply (StringSliceFlag_Set_String_roundtrip
           {| settings.StringSliceFlag_slice := Some settings.addr_BaseURLs |}
           settings.addr_BaseURLs "http://a/,,http://b/"
           (@settings.defaultSettings Sample.platform));
    reflexivity.
Defined.


(** X2: once the url flag has been set, to any value, even the empty one,
    the base URLs are not empty and Validate returns no error. *)
Theorem Validate_after_url_flag (value : string) (w : settings.World) :
  ∃ s',
    settings.StringSliceFlag_Set
      {| settings.StringSliceFlag_slice := Some settings.addr_BaseURLs |}
      value (settings.scanSettings w) = Returned (None, s')
    ∧ settings.BaseURLs s' ≠ []
    ∧ settings.Validate (settings.set_scanSettings s' w)
      = Returned (None, settings.set_scanSettings s' w).
Proof.
  eexists. split; [reflexivity|]. simpl.
  pose proof (splitByte_length "," value) as Hlen.
  unfold settings.Validate, mbind, GoM_bind, gets. simpl.
  unfold strings_Split_comma.
  destruct (splitByte "," value) as [|x l]; [done|]. by split.
Qed.

Section RobotsFlag.
Context {M : Type}.

(** X4: Set accepts exactly ignore, obey and seed: it then stores a mode
    below robotsModeMax, of which String prints the value set; for any other
    value it returns an error and stores nothing. *)
Theorem robotsFlag_Set_String (f : settings.robotsFlag M) (p : Ptr M Z)
    (value : string) (m : M) :
  settings.robotsFlag_mode f = Some p →
  (∀ i m0, deref p (assign p i m0) = i) →
  (value ∈ settings.robotsModeStrings →
   ∃ i, settings.robotsFlag_Set f value m = Returned (None, assign p i m)
        ∧ 0 ≤ i < settings.robotsModeMax
        ∧ settings.robotsFlag_String f (assign p i m) = Returned value)
  ∧ (value ∉ settings.robotsModeStrings →
     settings.robotsFlag_Set f value m
     = Returned (Some ("Unknown Robots Mode: " +:+ value), m)).
Proof.
  intros Hp Hlens. unfold settings.robotsFlag_Set, settings.robotsFlag_String,
    settings.robotsModeStrings. simpl. rewrite Hp. split.
  - intros Hin. repeat (apply elem_of_cons in Hin as [->|Hin]).
    + exists 0. by rewrite Hlens.
    + exists 1. by rewrite Hlens.
    + exists 2. by rewrite Hlens.
    + by apply elem_of_nil in Hin.
  - intros Hnot. rewrite !not_elem_of_cons in Hnot.
    destruct Hnot as (? & ? & ? & _).
    by rewrite !decide_False by done.
Qed.

(** X5: String of a mode within the table prints a value that Set reads back
    as the same mode; of a mode outside of the table it panics. *)
Theorem robotsFlag_String_in_range (f : settings.robotsFlag M) (p : Ptr M Z) (m : M) :
  settings.robotsFlag_mode f = Some p →
  (0 ≤ deref p m < settings.robotsModeMax →
   ∃ value, settings.robotsFlag_String f m = Returned value
            ∧ settings.robotsFlag_Set f value m
              = Returned (None, assign p (deref p m) m))
  ∧ (¬ 0 ≤ deref p m < settings.robotsModeMax →
     settings.robotsFlag_String f m = Panicked settings.indexOutOfRange).
Proof.
  intros Hp. unfold settings.robotsFlag_String, settings.robotsFlag_Set. rewrite Hp.
  unfold settings.robotsModeMax. split.
  - intros Hr.
    assert (deref p m = 0 ∨ deref p m = 1 ∨ deref p m = 2) as [->|[->| ->]] by lia;
      (eexists; split; [reflexivity|]); unfold settings.robotsModeStrings;
      cbn [settings.robotsFlag_Set_loop];
      rewrite ?Hp; repeat (rewrite decide_False by done); by rewrite decide_True by done.
  - intros Hr. unfold settings.robotsModeStrings_at.
    assert ((0 <=? deref p m)
            && (deref p m <? Z.of_nat (length settings.robotsModeStrings)) = false)
      as ->; [|done].
    apply andb_false_iff. rewrite Z.leb_gt, Z.ltb_ge. simpl. lia.
Qed.

End RobotsFlag.

(* the mode seed, and a mode that is out of range *)
Lemma robotsFlag_Set_String_sample :
  let f := {| settings.robotsFlag_mode := Some settings.addr_RobotsMode |} in
  let m := @settings.defaultSettings Sample.platform in
  "seed" ∈ settings.robotsModeStrings
  ∧ settings.robotsFlag_Set f "seed" m
    = Returned (None, settings.set_RobotsMode settings.SeedRobots m)
  ∧ (("seed" ∈ settings.robotsModeStrings →
      ∃ i, settings.robotsFlag_Set f "seed" m
             = Returned (None, assign settings.addr_RobotsMode i m)
           ∧ 0 ≤ i < settings.robotsModeMax
           ∧ settings.robotsFlag_String f (assign settings.addr_RobotsMode i m)
             = Returned "seed")
     ∧ ("seed" ∉ settings.robotsModeStrings →
        settings.robotsFlag_Set f "seed" m
        = Returned (Some ("Unknown Robots Mode: " +:+ "seed"), m))).
Proof.
  split; [by vm_compute; repeat constructor|]. split; [reflexivity|].
  apply (robotsFlag_Set_String
           {| settings.robotsFlag_mode := Some settings.addr_RobotsMode |}
           settings.addr_RobotsMode "seed"
           (@settings.defaultSettings Sample.platform));
    reflexivity.
Defined.

Lemma robotsFlag_String_in_range_sample :
  let f := {| settings.robotsFlag_mode := Some settings.addr_RobotsMode |} in
  let m := settings.set_RobotsMode 3 (@settings.defaultSettings Sample.platform) in
  ¬ 0 ≤ deref settings.addr_RobotsMode m < settings.robotsModeMax
  ∧ ((0 ≤ deref settings.addr_RobotsMode m < settings.robotsModeMax →
      ∃ value, settings.robotsFlag_String f m = Returned value
               ∧ settings.robotsFlag_Set f value m
                 = Returned (None, assign settings.addr_RobotsMode
                                     (deref settings.addr_RobotsMode m) m))
     ∧ (¬ 0 ≤ deref settings.addr_RobotsMode m < settings.robotsModeMax →
        settings.robotsFlag_String f m = Panicked settings.indexOutOfRange)).
Proof.
  split; [intros [_ Hlt]; vm_compute in Hlt; discriminate|].
  apply (robotsFlag_String_in_range
           {| settings.robotsFlag_mode := Some settings.addr_RobotsMode |}
           settings.addr_RobotsMode
           (settings.set_RobotsMode 3 (@settings.defaultSettings Sample.platform))).
  reflexivity.
Defined.


(** ** Inverting the steps of a run *)

Lemma modify_inv {St} (f : St → St) st a st' :
  modify f st = Returned (a, st') → st' = f st.
Proof. unfold modify. by intros [= _ <-]. Qed.

Lemma gets_inv {St A} (f : St → A) st a st' :
  gets f st = Returned (a, st') → a = f st ∧ st' = st.
Proof. unfold gets. by intros [= <- <-]. Qed.

Lemma mret_inv {St A} (x : A) (st : St) a st' :
  (mret x : GoM St A) st = Returned (a, st') → a = x ∧ st' = st.
Proof. unfold mret, GoM_ret. by intros [= <- <-]. Qed.

(** ** The first call of InitFlags *)
Section FirstInitFlags.
Context `{Platform}.

Lemma flag_Var_inv v n u w a w' :
  settings.flag_Var v n u w = Returned (a, w') →
  settings.CommandLine w !! n = None
  ∧ ∃ d, settings.FlagValue_String v (settings.scanSettings w) = Returned d
         ∧ w' = settings.set_CommandLine
                  (<[n := {| settings.Name := n; settings.Usage := u;
                             settings.Value := v; settings.DefValue := d |}]>
                     (settings.CommandLine w)) w.
Proof.
  unfold settings.flag_Var.
  destruct (settings.FlagValue_String v _) as [d|]; [|done].
  destruct (settings.CommandLine w !! n); [done|]. intros [= _ <-]. eauto.
Qed.

Lemma store_inv {A} (p : Ptr settings.ScanSettings A) v w a w' :
  settings.store p v w = Returned (a, w') →
  w' = settings.set_scanSettings (assign p v (settings.scanSettings w)) w.
Proof. unfold settings.store, modify. by intros [= _ <-]. Qed.


Ltac norm_in H :=
  cbn [settings.set_CommandLine settings.set_scanSettings settings.set_trace
       settings.set_outputFormats
       settings.CommandLine settings.scanSettings settings.outputFormats
       settings.trace assign deref
       settings.addr_BaseURLs settings.addr_Threads settings.addr_Workers
       settings.addr_ExcludePaths settings.addr_Proxies settings.addr_ParseHTML
       settings.addr_SleepTime settings.addr_LogfilePath settings.addr_LogLevel
       settings.addr_WordlistPath settings.addr_Extensions settings.addr_Mangle
       settings.addr_Timeout settings.addr_OutputFormat settings.addr_OutputPath
       settings.addr_UserAgent settings.addr_IncludeRedirects
       settings.addr_RobotsMode settings.addr_AllowHTTPSUpgrade
       settings.addr_SpiderCodes settings.addr_DebugCPUProf
       settings.set_BaseURLs settings.set_Threads settings.set_Workers
       settings.set_ExcludePaths settings.set_Proxies settings.set_ParseHTML
       settings.set_SleepTime settings.set_LogfilePath settings.set_LogLevel
       settings.set_WordlistPath settings.set_Extensions settings.set_Mangle
       settings.set_Timeout settings.set_OutputFormat settings.set_OutputPath
       settings.set_UserAgent settings.set_IncludeRedirects
       settings.set_RobotsMode settings.set_AllowHTTPSUpgrade
       settings.set_SpiderCodes settings.set_DebugCPUProf settings.set_flagsSet
       settings.set_configPath
       settings.BaseURLs settings.Threads settings.Workers
       settings.ExcludePaths settings.Proxies settings.ParseHTML
       settings.SleepTime settings.LogfilePath settings.LogLevel
       settings.WordlistPath settings.Extensions settings.Mangle
       settings.QueueSize
       settings.Timeout settings.OutputFormat settings.OutputPath
       settings.UserAgent settings.IncludeRedirects
       settings.RobotsMode settings.AllowHTTPSUpgrade
       settings.SpiderCodes settings.DebugCPUProf settings.flagsSet
       settings.configPath] in H.

Ltac norm_goal :=
  cbn [settings.set_CommandLine settings.set_scanSettings settings.set_trace
       settings.set_outputFormats
       settings.CommandLine settings.scanSettings settings.outputFormats
       settings.trace assign deref
       settings.addr_BaseURLs settings.addr_Threads settings.addr_Workers
       settings.addr_ExcludePaths settings.addr_Proxies settings.addr_ParseHTML
       settings.addr_SleepTime settings.addr_LogfilePath settings.addr_LogLevel
       settings.addr_WordlistPath settings.addr_Extensions settings.addr_Mangle
       settings.addr_Timeout settings.addr_OutputFormat settings.addr_OutputPath
       settings.addr_UserAgent settings.addr_IncludeRedirects
       settings.addr_RobotsMode settings.addr_AllowHTTPSUpgrade
       settings.addr_SpiderCodes settings.addr_DebugCPUProf
       settings.set_BaseURLs settings.set_Threads settings.set_Workers
       settings.set_ExcludePaths settings.set_Proxies settings.set_ParseHTML
       settings.set_SleepTime settings.set_LogfilePath settings.set_LogLevel
       settings.set_WordlistPath settings.set_Extensions settings.set_Mangle
       settings.set_Timeout settings.set_OutputFormat settings.set_OutputPath
       settings.set_UserAgent settings.set_IncludeRedirects
       settings.set_RobotsMode settings.set_AllowHTTPSUpgrade
       settings.set_SpiderCodes settings.set_DebugCPUProf settings.set_flagsSet
       settings.set_configPath
       settings.BaseURLs settings.Threads settings.Workers
       settings.ExcludePaths settings.Proxies settings.ParseHTML
       settings.SleepTime settings.LogfilePath settings.LogLevel
       settings.WordlistPath settings.Extensions settings.Mangle
       settings.QueueSize
       settings.Timeout settings.OutputFormat settings.OutputPath
       settings.UserAgent settings.IncludeRedirects
       settings.RobotsMode settings.AllowHTTPSUpgrade
       settings.SpiderCodes settings.DebugCPUProf settings.flagsSet
       settings.configPath].


Lemma robots_String_inv s d :
  settings.FlagValue_String
    (settings.robotsValue {| settings.robotsFlag_mode := Some settings.addr_RobotsMode |}) s
  = Returned d →
  0 ≤ settings.RobotsMode s < settings.robotsModeMax.
Proof.
  unfold settings.FlagValue_String, settings.robotsFlag_String.
  cbn [settings.robotsFlag_mode deref settings.addr_RobotsMode].
  unfold settings.robotsModeStrings_at.
  destruct ((0 <=? settings.RobotsMode s)
            && (settings.RobotsMode s <? Z.of_nat (length settings.robotsModeStrings)))
    eqn:Hc; [|done].
  intros _. apply andb_true_iff in Hc as [Hlo%Z.leb_le Hhi%Z.ltb_lt].
  simpl in Hhi. unfold settings.robotsModeMax. lia.
Qed.


Lemma robots_String_ok (r : Z) :
  0 ≤ r < settings.robotsModeMax →
  ∃ d, ∀ s, settings.RobotsMode s = r →
    settings.FlagValue_String
      (settings.robotsValue {| settings.robotsFlag_mode := Some settings.addr_RobotsMode |}) s
    = Returned d.
Proof.
  unfold settings.robotsModeMax. intros Hr.
  assert (r = 0 ∨ r = 1 ∨ r = 2) as [->|[->| ->]] by lia;
    eexists; intros s Hs; simpl; unfold settings.robotsFlag_String; simpl;
    rewrite Hs; reflexivity.
Qed.

Lemma flag_Var_inv_dom v n u s c o t a w' (c0 : gmap string settings.Flag) (N : list string) :
  settings.flag_Var v n u
    {| settings.scanSettings := s; settings.CommandLine := c;
       settings.outputFormats := o; settings.trace := t |} = Returned (a, w') →
  dom c = list_to_set N ∪ dom c0 → c0 ⊆ c →
  ∃ c' d,
    w' = {| settings.scanSettings := s; settings.CommandLine := c';
            settings.outputFormats := o; settings.trace := t |}
    ∧ settings.FlagValue_String v s = Returned d
    ∧ (n ∉ N) ∧ (n ∉ dom c0)
    ∧ dom c' = list_to_set (n :: N) ∪ dom c0 ∧ c0 ⊆ c'.
Proof.
  intros (Hn & d & Hd & ->)%flag_Var_inv Hdom Hsub. simpl in *.
  apply not_elem_of_dom in Hn. rewrite Hdom in Hn.
  eexists _, d. split; [reflexivity|]. split; [done|].
  split; [set_solver|]. split; [set_solver|]. split.
  - rewrite dom_insert_L, Hdom. set_solver.
  - apply insert_subseteq_r; [|done]. apply not_elem_of_dom. set_solver.
Qed.

Ltac go_inv H :=
  first
    [ apply store_inv in H; subst; norm_in H
    | apply modify_inv in H; subst
    | match goal with
      | Hd : (dom ?c = (list_to_set _ ∪ dom ?c0)), Hs : (?c0 ⊆ ?c) |- _ =>
          let c' := fresh "c" in let d := fresh "d" in
          let Hdef := fresh "Hdef" in let Hn := fresh "HnN" in
          let Hn0 := fresh "Hfresh" in
          let Hd' := fresh "Hdom" in let Hs' := fresh "Hsub" in
          destruct (flag_Var_inv_dom _ _ _ _ _ _ _ _ _ _ _ H Hd Hs)
            as (c' & d & -> & Hdef & Hn & Hn0 & Hd' & Hs');
          clear H Hd Hs Hn;
          first [ apply robots_String_inv in Hdef; norm_in Hdef | clear Hdef ]
      end
    | apply gets_inv in H as [-> ->]
    | apply mret_inv in H as [-> ->]
    | match type of H with
      | (match ?o with [] => _ | _ => _ end) _ = _ =>
          destruct o as [|? [|? ?]]; go_inv H
      end
    | let a := fresh "a" in let w := fresh "w" in let H1 := fresh "Hs" in
      apply GoM_bind_Returned in H as (a & w & H1 & H); cbv beta zeta in H;
      go_inv H1; norm_in H; go_inv H ].

Variable LogLevelStrings : list string.

Lemma InitFlags_register_inv w w1 :
  settings.InitFlags_register LogLevelStrings w = Returned ((), w1) →
  settings.scanSettings w1
    = flagDefaults (settings.outputFormats w) (settings.scanSettings w)
  ∧ dom (settings.CommandLine w1)
    = flagNames (settings.outputFormats w) ∪ dom (settings.CommandLine w)
  ∧ settings.CommandLine w ⊆ settings.CommandLine w1
  ∧ flagNames (settings.outputFormats w) ## dom (settings.CommandLine w)
  ∧ settings.outputFormats w1 = settings.outputFormats w
  ∧ settings.trace w1 = settings.trace w
  ∧ 0 ≤ settings.RobotsMode (settings.scanSettings w) < settings.robotsModeMax.
Proof.
  intros Hrun. unfold settings.InitFlags_register in Hrun.
  unfold settings.flag_IntVar, settings.flag_BoolVar, settings.flag_StringVar in Hrun.
  cbv beta zeta in Hrun.
  destruct w as [s c o t]. destruct s.
  assert (Hdom : dom c = list_to_set [] ∪ dom c) by set_solver.
  assert (Hsub : c ⊆ c) by done.
  go_inv Hrun.
  all: norm_goal.
  all: split; [reflexivity|].
  all: split;
    [ unfold flagNames, flagNameList;
      match goal with H : (_ = (_ ∪ dom _)) |- _ => rewrite H end;
      cbn [app list_to_set]; set_solver |].
  all: split; [done|].
  all: split;
    [ apply elem_of_disjoint; intros n Hn Hin;
      apply elem_of_list_to_set in Hn; cbn [flagNameList app] in Hn;
      repeat (apply elem_of_cons in Hn as [->|Hn]; [done|]);
      by apply elem_of_nil in Hn |].
  all: done.
Qed.



Lemma returns_bind {St A B} (m : GoM St A) (f : A → GoM St B) st a st1 :
  m st = Returned (a, st1) → returns (f a) st1 → returns (m ≫= f) st.
Proof.
  intros Hm (b & st' & Hf). exists b, st'. by rewrite (GoM_bind_step _ _ _ _ _ Hm).
Qed.

Lemma returns_assoc {St A B C} (m : GoM St A) (f : A → GoM St B)
    (g : B → GoM St C) st :
  returns (m ≫= (λ a, f a ≫= g)) st → returns ((m ≫= f) ≫= g) st.
Proof.
  intros (c & st' & Hrun). exists c, st'. revert Hrun.
  unfold mbind, GoM_bind. by destruct (m st) as [[a st1]|].
Qed.

Lemma flag_Var_run_dom v n u s c o t (c0 : gmap string settings.Flag) (N : list string) :
  (∃ d, settings.FlagValue_String v s = Returned d) →
  n ∉ N → n ∉ dom c0 → dom c = list_to_set N ∪ dom c0 →
  ∃ c',
    settings.flag_Var v n u
      {| settings.scanSettings := s; settings.CommandLine := c;
         settings.outputFormats := o; settings.trace := t |}
    = Returned ((), {| settings.scanSettings := s; settings.CommandLine := c';
                       settings.outputFormats := o; settings.trace := t |})
    ∧ dom c' = list_to_set (n :: N) ∪ dom c0.
Proof.
  intros [d Hd] HnN Hn0 Hdom. eexists. split.
  - unfold settings.flag_Var. simpl. rewrite Hd.
    assert (c !! n = None) as ->; [|reflexivity].
    apply not_elem_of_dom. rewrite Hdom. set_solver.
  - rewrite dom_insert_L, Hdom. set_solver.
Qed.

Lemma store_run {A} (p : Ptr settings.ScanSettings A) v s c o t :
  settings.store p v
    {| settings.scanSettings := s; settings.CommandLine := c;
       settings.outputFormats := o; settings.trace := t |}
  = Returned ((), {| settings.scanSettings := assign p v s;
                     settings.CommandLine := c;
                     settings.outputFormats := o; settings.trace := t |}).
Proof. reflexivity. Qed.

Ltac go_run Hrob :=
  lazymatch goal with
  | |- returns ((_ ≫= _) ≫= _) _ => apply returns_assoc; go_run Hrob
  | |- returns (settings.flag_Var ?v ?n ?u ≫= _)
         {| settings.scanSettings := ?s; settings.CommandLine := ?c;
            settings.outputFormats := ?o; settings.trace := ?t |} =>
      lazymatch goal with
      | Hd : (dom c = (list_to_set ?N ∪ dom ?c0)) |- _ =>
          let c' := fresh "c" in let Hr := fresh "Hr" in let Hd' := fresh "Hdom" in
          destruct (flag_Var_run_dom v n u s c o t c0 N) as (c' & Hr & Hd');
          [ first [ eexists; reflexivity | eexists; apply Hrob; reflexivity ]
          | repeat (apply not_elem_of_cons; split; [done|]); apply not_elem_of_nil
          | assumption
          | exact Hd
          | eapply returns_bind; [exact Hr|]; clear Hr Hd; cbv beta; norm_goal;
            go_run Hrob ]
      end
  | |- returns (_ ≫= _) _ =>
      eapply returns_bind; [first [apply store_run | reflexivity]|];
      cbv beta; norm_goal; go_run Hrob
  | |- returns _ _ => eexists _, _; reflexivity
  end.

Lemma InitFlags_register_returns w :
  flagNames (settings.outputFormats w) ## dom (settings.CommandLine w) →
  0 ≤ settings.RobotsMode (settings.scanSettings w) < settings.robotsModeMax →
  returns (settings.InitFlags_register LogLevelStrings) w.
Proof.
  intros Hdisj Hr. destruct (robots_String_ok _ Hr) as [d Hrob].
  assert (Hfresh : Forall (λ n, n ∉ dom (settings.CommandLine w))
                     (flagNameList (settings.outputFormats w))).
  { apply Forall_forall. intros n Hn Hin.
    apply (Hdisj n); [by apply elem_of_list_to_set|done]. }
  clear Hdisj Hr.
  destruct w as [s c o t].
  cbn [settings.CommandLine settings.outputFormats] in Hfresh.
  assert (Hdom : dom c = list_to_set [] ∪ dom c) by set_solver.
  unfold settings.InitFlags_register.
  unfold settings.flag_IntVar, settings.flag_BoolVar, settings.flag_StringVar.
  cbv beta zeta.
  destruct o as [|f0 [|f1 o]]; cbn [flagNameList app] in Hfresh;
    repeat (apply Forall_cons in Hfresh as [? Hfresh]); clear Hfresh;
    go_run Hrob.
Qed.


Lemma GoM_bind_Panicked {St A B} (m : GoM St A) (f : A → GoM St B) st msg :
  m st = Panicked msg → (m ≫= f) st = Panicked msg.
Proof. unfold mbind, GoM_bind. by intros ->. Qed.

Local Abbreviation InitFlags := (settings.InitFlags LogLevelStrings).
Local Abbreviation NewScanSettings := (settings.NewScanSettings LogLevelStrings).

Lemma InitFlags_unset (w : settings.World) :
  settings.flagsSet (settings.scanSettings w) = false →
  InitFlags w = settings.InitFlags_register LogLevelStrings w.
Proof.
  intros Hset. unfold settings.InitFlags, mbind, GoM_bind, gets. by rewrite Hset.
Qed.

(** X6: a first call of InitFlags that returns has written the default of
    every int, bool and string flag into its field, whatever the field held
    (OutputFormat only with two output formats or more), has kept the other
    fields, has added its flags to those registered before, and has left the
    output formats and the log alone. *)
Theorem InitFlags_first_call_effect (w w1 : settings.World) :
  settings.flagsSet (settings.scanSettings w) = false →
  InitFlags w = Returned ((), w1) →
  settings.scanSettings w1
    = flagDefaults (settings.outputFormats w) (settings.scanSettings w)
  ∧ dom (settings.CommandLine w1)
    = flagNames (settings.outputFormats w) ∪ dom (settings.CommandLine w)
  ∧ settings.CommandLine w ⊆ settings.CommandLine w1
  ∧ settings.outputFormats w1 = settings.outputFormats w
  ∧ settings.trace w1 = settings.trace w.
Proof.
  intros Hset Hrun. rewrite (InitFlags_unset w Hset) in Hrun.
  apply InitFlags_register_inv in Hrun. tauto.
Qed.

(** X7: with flagsSet not set, InitFlags returns exactly when none of the
    names it registers is registered already and RobotsMode is an index of
    the table of modes; otherwise it panics. *)
Theorem InitFlags_returns_iff (w : settings.World) :
  settings.flagsSet (settings.scanSettings w) = false →
  (∃ w1, InitFlags w = Returned ((), w1)) ↔
  flagNames (settings.outputFormats w) ## dom (settings.CommandLine w)
  ∧ 0 ≤ settings.RobotsMode (settings.scanSettings w) < settings.robotsModeMax.
Proof.
  intros Hset. rewrite (InitFlags_unset w Hset). split.
  - intros [w1 Hrun]. apply InitFlags_register_inv in Hrun. tauto.
  - intros [Hdisj Hr].
    destruct (InitFlags_register_returns w Hdisj Hr) as ([] & w1 & Hrun).
    by exists w1.
Qed.

(** X8: NewScanSettings can be called once: after a call that returned, a
    second call panics, as the flag url is registered already. *)
Theorem NewScanSettings_twice_panics (w w1 : settings.World) :
  NewScanSettings w = Returned ((), w1) →
  ∃ msg, NewScanSettings w1 = Panicked msg.
Proof.
  intros Hfirst. exists "flag redefined: url". revert Hfirst.
  unfold settings.NewScanSettings. intros Hfirst.
  apply GoM_bind_Returned in Hfirst as ([] & w0 & Hmod & Hfirst).
  apply modify_inv in Hmod as ->.
  rewrite InitFlags_unset in Hfirst by done.
  apply InitFlags_register_inv in Hfirst as (_ & Hdom & _).
  assert (Hurl : is_Some (settings.CommandLine w1 !! "url")).
  { apply elem_of_dom. rewrite Hdom. apply elem_of_union_l, elem_of_list_to_set.
    by left. }
  destruct Hurl as [flag Hurl].
  rewrite (GoM_bind_step _ _ w1 () (settings.set_scanSettings settings.defaultSettings w1))
    by done.
  rewrite InitFlags_unset by done.
  unfold settings.InitFlags_register. cbv zeta.
  apply GoM_bind_Panicked. unfold settings.flag_Var. simpl. by rewrite Hurl.
Qed.

End FirstInitFlags.

(* the first call on the default settings *)
Lemma InitFlags_first_call_effect_sample :
  let w := Sample.world (@settings.defaultSettings Sample.platform) in
  settings.scanSettings afterInitFlags
    = @flagDefaults Sample.platform (settings.outputFormats w) (settings.scanSettings w)
  ∧ dom (settings.CommandLine afterInitFlags)
    = flagNames (settings.outputFormats w) ∪ dom (settings.CommandLine w)
  ∧ settings.CommandLine w ⊆ settings.CommandLine afterInitFlags
  ∧ settings.outputFormats afterInitFlags = settings.outputFormats w
  ∧ settings.trace afterInitFlags = settings.trace w.
Proof.
  apply (@InitFlags_first_call_effect Sample.platform ["DEBUG"; "INFO"; "WARNING"]
           (Sample.world (@settings.defaultSettings Sample.platform))
           afterInitFlags).
  - reflexivity.
  - by vm_compute.
Defined.

Lemma InitFlags_returns_iff_sample :
  let w := Sample.world (@settings.defaultSettings Sample.platform) in
  (∃ w1, @settings.InitFlags Sample.platform ["DEBUG"; "INFO"; "WARNING"] w
         = Returned ((), w1)) ↔
  flagNames (settings.outputFormats w) ## dom (settings.CommandLine w)
  ∧ 0 ≤ settings.RobotsMode (settings.scanSettings w) < settings.robotsModeMax.
Proof.
  apply (@InitFlags_returns_iff Sample.platform ["DEBUG"; "INFO"; "WARNING"]
           (Sample.world (@settings.defaultSettings Sample.platform))).
  reflexivity.
Defined.

Lemma NewScanSettings_twice_panics_sample :
  @settings.NewScanSettings Sample.platform ["DEBUG"; "INFO"; "WARNING"]
    (Sample.world (@settings.defaultSettings Sample.platform))
    = Returned ((), afterInitFlags)
  ∧ ∃ msg, @settings.NewScanSettings Sample.platform ["DEBUG"; "INFO"; "WARNING"]
             afterInitFlags = Panicked msg.
Proof.
  split; [by vm_compute|].
  apply (@NewScanSettings_twice_panics Sample.platform ["DEBUG"; "INFO"; "WARNING"]
           (Sample.world (@settings.defaultSettings Sample.platform))
           afterInitFlags).
  by vm_compute.
Defined.


(** ** Configuration files *)
Section ConfigFiles.
Context `{Platform} `{settings.OS}.
Variable LogLevelStrings : list string.

Local Abbreviation LoadFromConfigFile := (settings.LoadFromConfigFile LogLevelStrings).
Local Abbreviation loop := (settings.LoadFromDefaultConfigFiles_loop LogLevelStrings).

Lemma firstConfigFile_cons path rest :
  firstConfigFile (path :: rest)
  = if decide (settings.os_Stat path = Some false) then Some path
    else firstConfigFile rest.
Proof.
  unfold firstConfigFile. simpl.
  destruct (decide (settings.os_Stat path = Some false)); [done|].
  by destruct (list_find _ rest) as [[i p]|].
Qed.

Lemma loop_first_file (paths : list string) (w : settings.World) :
  loop paths w
  = match firstConfigFile paths with
    | Some path => LoadFromConfigFile path w
    | None => Returned ((), w)
    end.
Proof.
  induction paths as [|path rest IH]; [done|].
  rewrite firstConfigFile_cons. simpl.
  destruct (settings.os_Stat path) as [[]|] eqn:Hstat.
  - by rewrite decide_False by done.
  - by rewrite decide_True by done.
  - by rewrite decide_False by done.
Qed.

Lemma loop_first_file_set (paths : list string) (w : settings.World) path :
  settings.flagsSet (settings.scanSettings w) = true →
  firstConfigFile paths = Some path →
  loop paths w
  = Returned ((), settings.set_scanSettings
                    (settings.set_configPath path (settings.scanSettings w)) w).
Proof.
  intros Hset Hfirst. rewrite loop_first_file, Hfirst.
  unfold settings.LoadFromConfigFile.
  by rewrite (GoM_bind_step _ _ _ _ _ (InitFlags_when_set LogLevelStrings w Hset)).
Qed.

(** X9: the loop over the configuration paths loads the first path that
    os.Stat finds and that is no directory, and no other; paths that are
    missing or are directories are passed over; when there is no such path
    nothing is loaded and the state is unchanged.  With the flags set up,
    loading only sets configPath. *)
Theorem LoadFromDefaultConfigFiles_first_file (paths : list string) (w : settings.World) :
  loop paths w
  = match firstConfigFile paths with
    | Some path => LoadFromConfigFile path w
    | None => Returned ((), w)
    end
  ∧ (∀ path, firstConfigFile paths = Some path →
       path ∈ paths ∧ settings.os_Stat path = Some false)
  ∧ (firstConfigFile paths = None →
       ∀ path, path ∈ paths → settings.os_Stat path ≠ Some false)
  ∧ (∀ path, settings.flagsSet (settings.scanSettings w) = true →
       firstConfigFile paths = Some path →
       loop paths w
       = Returned ((), settings.set_scanSettings
                         (settings.set_configPath path (settings.scanSettings w)) w)).
Proof.
  split; [apply loop_first_file|]. split; [|split].
  - intros path Hfirst. unfold firstConfigFile in Hfirst.
    destruct (list_find _ paths) as [[i p]|] eqn:Hfind; [|done].
    simpl in Hfirst. injection Hfirst as ->.
    apply list_find_Some in Hfind as (Hi & Hp & _).
    split; [by eapply list_elem_of_lookup_2|done].
  - intros Hnone path Hin. unfold firstConfigFile in Hnone.
    destruct (list_find _ paths) as [[i p]|] eqn:Hfind; [done|].
    apply list_find_None in Hfind. by eapply Forall_forall in Hfind.
  - intros path. apply loop_first_file_set.
Qed.

(** X10: once init has run, the configuration file of the current user comes
    before /etc/webborer.conf: it is the one loaded whenever it is a file;
    the system file is loaded only when the user's is not; with no current
    user only the system file is looked at. *)
Theorem user_config_before_system_config (w : settings.World) :
  (∀ homeDir,
     settings.user_Current = Some homeDir →
     let userPath := settings.filepath_Join [homeDir; ".config"; "webborer.conf"] in
     settings.defaultConfigPaths = [userPath; "/etc/webborer.conf"]
     ∧ (settings.os_Stat userPath = Some false →
        settings.LoadFromDefaultConfigFiles LogLevelStrings w
        = LoadFromConfigFile userPath w)
     ∧ (settings.os_Stat userPath ≠ Some false →
        settings.os_Stat "/etc/webborer.conf" = Some false →
        settings.LoadFromDefaultConfigFiles LogLevelStrings w
        = LoadFromConfigFile "/etc/webborer.conf" w)
     ∧ (settings.os_Stat userPath ≠ Some false →
        settings.os_Stat "/etc/webborer.conf" ≠ Some false →
        settings.LoadFromDefaultConfigFiles LogLevelStrings w = Returned ((), w)))
  ∧ (settings.user_Current = None →
     settings.defaultConfigPaths = ["/etc/webborer.conf"]
     ∧ (settings.os_Stat "/etc/webborer.conf" = Some false →
        settings.LoadFromDefaultConfigFiles LogLevelStrings w
        = LoadFromConfigFile "/etc/webborer.conf" w)
     ∧ (settings.os_Stat "/etc/webborer.conf" ≠ Some false →
        settings.LoadFromDefaultConfigFiles LogLevelStrings w = Returned ((), w))).
Proof.
  unfold settings.LoadFromDefaultConfigFiles, settings.defaultConfigPaths,
    settings.declaredConfigPaths.
  split.
  - intros homeDir Hcur. rewrite Hcur. cbv zeta.
    set (userPath := settings.filepath_Join [homeDir; ".config"; "webborer.conf"]).
    cbn [app]. split; [done|].
    rewrite !loop_first_file, !firstConfigFile_cons.
    split; [|split].
    + intros Hu. by rewrite decide_True.
    + intros Hu He. by rewrite decide_False, decide_True.
    + intros Hu He. by rewrite !decide_False.
  - intros Hcur. rewrite Hcur. split; [done|].
    rewrite !loop_first_file, !firstConfigFile_cons.
    split.
    + intros He. by rewrite decide_True.
    + intros He. by rewrite decide_False.
Qed.

End ConfigFiles.

(** ** From the command line to the settings *)
Section GetScanSettingsSpec.
Context `{Platform} `{settings.OS} `{settings.CommandLineArgs}.
Variable LogLevelStrings : list string.


Lemma append_args args : ∀ s,
  foldl (λ s arg, settings.set_BaseURLs (settings.BaseURLs s ++ [arg]) s) s args
  = settings.set_BaseURLs (settings.BaseURLs s ++ args) s.
Proof.
  induction args as [|arg args IH]; intros s; simpl.
  - rewrite app_nil_r. by destruct s.
  - rewrite IH. simpl. by rewrite <- app_assoc.
Qed.

(** X11: GetScanSettings, when NewScanSettings returns and flag.Parse leaves
    the arguments args: InitFlags registers the flags once, the arguments are
    appended in order to the base URLs that the flags gave, and the result is
    these settings, or the error of Validate when there is no base URL at
    all. *)
Theorem GetScanSettings_spec (w w1 w2 : settings.World) (args : list string) :
  settings.NewScanSettings LogLevelStrings w = Returned ((), w1) →
  settings.flag_Parse (withConfigFile w1) = Returned (args, w2) →
  let urls := settings.BaseURLs (settings.scanSettings w2) ++ args in
  let s2 := settings.set_BaseURLs urls (settings.scanSettings w2) in
  let w3 := settings.set_scanSettings s2 w2 in
  (urls ≠ [] →
   settings.GetScanSettings LogLevelStrings w = Returned (inl s2, w3))
  ∧ (urls = [] →
     settings.GetScanSettings LogLevelStrings w
     = Returned (inr "URL is required.",
                 emit FlagPrintDefaults
                   (emit (StderrWrite ("Usage:" +:+ settings.newline)) w3))).
Proof.
  intros Hnew Hparse urls s2 w3.
  assert (Hset1 : settings.flagsSet (settings.scanSettings w1) = true).
  { unfold settings.NewScanSettings in Hnew.
    apply GoM_bind_Returned in Hnew as ([] & w0 & Hmod & Hinit).
    apply modify_inv in Hmod as ->.
    rewrite InitFlags_unset in Hinit by done.
    by apply InitFlags_register_sets in Hinit. }
  assert (Hload : settings.LoadFromDefaultConfigFiles LogLevelStrings w1
                  = Returned ((), withConfigFile w1)).
  { unfold settings.LoadFromDefaultConfigFiles, withConfigFile.
    destruct (firstConfigFile settings.defaultConfigPaths) as [path|] eqn:Hf.
    - by apply loop_first_file_set.
    - by rewrite loop_first_file, Hf. }
  assert (Hset2 : settings.flagsSet (settings.scanSettings (withConfigFile w1)) = true).
  { unfold withConfigFile. by destruct (firstConfigFile _). }
  assert (Hpf : settings.ParseFlags LogLevelStrings (withConfigFile w1)
                = Returned ((), w3)).
  { unfold settings.ParseFlags.
    rewrite (GoM_bind_step _ _ _ _ _ (InitFlags_when_set LogLevelStrings _ Hset2)).
    rewrite (GoM_bind_step _ _ _ _ _ Hparse). unfold modify.
    by rewrite append_args. }
  unfold settings.GetScanSettings.
  rewrite (GoM_bind_step _ _ _ _ _ Hnew), (GoM_bind_step _ _ _ _ _ Hload),
    (GoM_bind_step _ _ _ _ _ Hpf).
  unfold settings.Validate, settings.flagError, mbind, GoM_bind, gets, modify,
    mret, GoM_ret. simpl. fold urls.
  destruct urls as [|u us]; simpl; split; done.
Qed.

End GetScanSettingsSpec.

(* two arguments and the configuration file of the user *)
Lemma GetScanSettings_spec_sample :
  let GetScanSettings :=
    @settings.GetScanSettings Sample.platform sampleOS sampleArgs
      ["DEBUG"; "INFO"; "WARNING"] in
  let w := Sample.world (@settings.defaultSettings Sample.platform) in
  let args := ["http://example.test/"; "http://example.test/admin"] in
  let w2 := @withConfigFile sampleOS afterInitFlags in
  let urls := settings.BaseURLs (settings.scanSettings w2) ++ args in
  let s2 := settings.set_BaseURLs urls (settings.scanSettings w2) in
  let w3 := settings.set_scanSettings s2 w2 in
  (urls = args ∧ settings.configPath s2 = "/home/u/.config/webborer.conf")
  ∧ (urls ≠ [] → GetScanSettings w = Returned (inl s2, w3))
  ∧ (urls = [] →
     GetScanSettings w
     = Returned (inr "URL is required.",
                 emit FlagPrintDefaults
                   (emit (StderrWrite ("Usage:" +:+ settings.newline)) w3))).
Proof.
  split; [by vm_compute|].
  apply (@GetScanSettings_spec Sample.platform sampleOS sampleArgs
           ["DEBUG"; "INFO"; "WARNING"]
           (Sample.world (@settings.defaultSettings Sample.platform))
           afterInitFlags (@withConfigFile sampleOS afterInitFlags)
           ["http://example.test/"; "http://example.test/admin"]).
  - by vm_compute.
  - reflexivity.
Defined.


(** ** Scopes: the first base URL that does not parse *)
Section GetScopesFailure.
Context `{NetURL}.


Lemma GetScopes_loop_failure pre : ∀ i scopes w baseURL post err,
  Forall (λ b, ¬ failsToParseURL b) pre →
  url_Parse baseURL = inr err →
  settings.GetScopes_loop i (pre ++ baseURL :: post) scopes w
  = Returned (inr ("Unable to parse BaseURL (" +:+ baseURL +:+ "): " +:+ err),
              emitAll (omap scopeLog pre) w).
Proof.
  induction pre as [|b pre IH]; intros i scopes w baseURL post err Hpre Herr; simpl.
  - by rewrite Herr.
  - apply Forall_cons in Hpre as [Hb Hpre]. unfold scopeLog at 1.
    destruct (url_Parse b) as [parsed|e] eqn:Hparse.
    + simpl. unfold mbind, GoM_bind, Logf, modify. fold (scopeOf parsed).
      by rewrite (IH _ _ _ _ _ _ Hpre Herr).
    + destruct Hb. by exists e.
Qed.

(** X12: when a base URL does not parse and those before it do, GetScopes
    returns the error that names this base URL, after one log line for each
    base URL before it; the base URLs after it are not looked at. *)
Theorem GetScopes_first_failure (w : settings.World) (pre post : list string)
    (baseURL : string) (err : error) :
  settings.BaseURLs (settings.scanSettings w) = pre ++ baseURL :: post →
  Forall (λ b, ¬ failsToParseURL b) pre →
  url_Parse baseURL = inr err →
  settings.GetScopes w
  = Returned (inr ("Unable to parse BaseURL (" +:+ baseURL +:+ "): " +:+ err),
              emitAll (omap scopeLog pre) w)
  ∧ length (omap scopeLog pre) = length pre.
Proof.
  intros Hurls Hpre Herr. split.
  - unfold settings.GetScopes, mbind, GoM_bind, gets. rewrite Hurls.
    by apply GetScopes_loop_failure.
  - clear Hurls. induction Hpre as [|b pre Hb _ IH]; [done|].
    change (omap scopeLog (b :: pre))
      with (match scopeLog b with
            | Some e => e :: omap scopeLog pre
            | None => omap scopeLog pre
            end).
    unfold scopeLog at 1. destruct (url_Parse b) as [parsed|e] eqn:Hparse.
    + simpl. by rewrite IH.
    + destruct Hb. by exists e.
Qed.

End GetScopesFailure.

(* the second base URL of three does not parse *)
Lemma GetScopes_first_failure_sample :
  let w := Sample.world
             (settings.set_BaseURLs ["//example.test"; ":bad"; "/admin"]
                (@settings.defaultSettings Sample.platform)) in
  @settings.GetScopes Sample.netURL w
  = Returned (inr "Unable to parse BaseURL (:bad): missing protocol scheme",
              emit (Logged LogDebug "Added BaseURL: //example.test/") w)
  ∧ length (omap (@scopeLog Sample.netURL) ["//example.test"]) = 1%nat.
Proof.
  apply (@GetScopes_first_failure Sample.netURL
           (Sample.world
              (settings.set_BaseURLs ["//example.test"; ":bad"; "/admin"]
                 (@settings.defaultSettings Sample.platform)))
           ["//example.test"] ["/admin"] ":bad" "missing protocol scheme").
  - reflexivity.
  - constructor; [|constructor]. intros [e He]. vm_compute in He. discriminate.
  - reflexivity.
Defined.


(** ** The int slice flag: the first component that does not parse *)
Section IntSliceFlagFailure.
Context `{Unicode} `{Platform}.
Context {M : Type}.

Lemma IntSliceFlag_Set_loop_failure pre : ∀ parsed ints v post,
  Forall2 parsesTo pre parsed → failsToParse v →
  settings.IntSliceFlag_Set_loop (pre ++ v :: post) ints
  = inr ("Unable to parse " +:+ v +:+ " as int.").
Proof.
  induction pre as [|x pre IH]; intros parsed ints v post Hpre Hv; simpl.
  - unfold failsToParse in Hv. by rewrite Hv.
  - apply Forall2_cons_inv_l in Hpre as (i & parsed' & Hx & Hpre & ->).
    unfold parsesTo in Hx. rewrite Hx. by eapply IH.
Qed.

(** X13: when a component does not parse and those before it do, Set returns
    the error that names this component, as it was written, and writes
    nothing, whether the pointer is nil or not. *)
Theorem IntSliceFlag_Set_first_failure (f : settings.IntSliceFlag M)
    (value : string) (m : M) (pre post : list string) (parsed : list Z) (v : string) :
  strings_Split_comma value = pre ++ v :: post →
  Forall2 parsesTo pre parsed →
  failsToParse v →
  settings.IntSliceFlag_Set f value m
  = Returned (Some ("Unable to parse " +:+ v +:+ " as int."), m).
Proof.
  intros Hsplit Hpre Hv. unfold settings.IntSliceFlag_Set.
  by rewrite Hsplit, (IntSliceFlag_Set_loop_failure pre parsed [] v post Hpre Hv).
Qed.

End IntSliceFlagFailure.

(* the second component of three does not parse *)
Lemma IntSliceFlag_Set_first_failure_sample :
  let f := {| settings.IntSliceFlag_slice := Some settings.addr_SpiderCodes |} in
  let m := @settings.defaultSettings Sample.platform in
  @settings.IntSliceFlag_Set Sample.unicode Sample.platform _ f "200, 3x1,404" m
  = Returned (Some "Unable to parse  3x1 as int.", m).
Proof.
  apply (@IntSliceFlag_Set_first_failure Sample.unicode Sample.platform _
           {| settings.IntSliceFlag_slice := Some settings.addr_SpiderCodes |}
           "200, 3x1,404" (@settings.defaultSettings Sample.platform)
           ["200"] ["404"] [200] " 3x1").
  - reflexivity.
  - constructor; [reflexivity|constructor].
  - reflexivity.
Defined.


(** ** HTML worker: every link is accounted for *)
Section HandleAccounts.
Context `{NetURL}.

Lemma trace_emitAll (es : list Event) : ∀ w : settings.World,
  settings.trace (emitAll es w) = settings.trace w ++ es
  ∧ settings.scanSettings (emitAll es w) = settings.scanSettings w
  ∧ settings.CommandLine (emitAll es w) = settings.CommandLine w.
Proof.
  induction es as [|e es IH]; intros w; simpl.
  - by rewrite app_nil_r.
  - destruct (IH (emit e w)) as (-> & -> & ->). simpl.
    by rewrite <- app_assoc.
Qed.

Lemma links_partition (base : URL) (links : list string) :
  (length (omap (resolved base) links) + length (omap parseFailure links)
   = length links)%nat.
Proof.
  induction links as [|l links IH]; [done|].
  change (omap (resolved base) (l :: links))
    with (match resolved base l with
          | Some u => u :: omap (resolved base) links
          | None => omap (resolved base) links
          end).
  change (omap parseFailure (l :: links))
    with (match parseFailure l with
          | Some e => e :: omap parseFailure links
          | None => omap parseFailure links
          end).
  unfold resolved at 1, parseFailure at 1.
  destruct (url_Parse l); simpl; lia.
Qed.

(** X14: the loop of Handle accounts for every link: it keeps the URLs found
    before and the log, adds one URL or logs one line for each link, and
    writes nothing else. *)
Theorem Handle_loop_accounts (base : URL) (links : list string)
    (found : list URL) (w : settings.World) :
  ∃ found' w',
    worker.Handle_loop base links found w = Returned (found', w')
    ∧ found `prefix_of` found'
    ∧ settings.trace w `prefix_of` settings.trace w'
    ∧ ((length found' - length found)
       + (length (settings.trace w') - length (settings.trace w))
       = length links)%nat
    ∧ settings.scanSettings w' = settings.scanSettings w
    ∧ settings.CommandLine w' = settings.CommandLine w.
Proof.
  eexists _, _. split; [apply Handle_loop_eq|].
  destruct (trace_emitAll (omap parseFailure links) w) as (-> & -> & ->).
  split; [by apply prefix_app_r|]. split; [by apply prefix_app_r|].
  split; [|done]. rewrite !length_app.
  pose proof (links_partition base links). lia.
Qed.

End HandleAccounts.

(** ** HTML worker: the header that makes a response eligible *)
Section EligibleHeader.
Context `{Unicode}.

Lemma length_mapBytes f s : String.length (mapBytes f s) = String.length s.
Proof. induction s as [|c s IH]; simpl; [done|]. by rewrite IH. Qed.

(** X15: an eligible response has a Content-Type header whose first value
    lowercases to text/html, so a first value of ASCII bytes has 9 bytes: a
    response with no such header, or whose first value carries a parameter,
    is not eligible, whatever its length. *)
Theorem Eligible_needs_content_type :
  (∀ resp,
     worker.Eligible resp = true →
     ∃ v rest,
       worker.Header resp !! "Content-Type" = Some (v :: rest)
       ∧ strings_ToLower v = "text/html"
       ∧ (isASCII v = true → String.length v = 9%nat))
  ∧ (∀ resp,
       worker.Header resp !! "Content-Type" = None
       ∨ worker.Header resp !! "Content-Type" = Some [] →
       worker.Eligible resp = false)
  ∧ (∀ resp v rest,
       worker.Header resp !! "Content-Type" = Some (v :: rest) →
       isASCII v = true → String.length v ≠ 9%nat →
       worker.Eligible resp = false).
Proof.
  assert (Hlen : ∀ v, strings_ToLower v = "text/html" → isASCII v = true →
                      String.length v = 9%nat).
  { intros v Hv Ha. unfold strings_ToLower in Hv. rewrite Ha in Hv.
    apply (f_equal String.length) in Hv. by rewrite length_mapBytes in Hv. }
  assert (Hget : ∀ resp, worker.Eligible resp = true →
     strings_ToLower (match worker.Header resp !! "Content-Type" with
                      | Some (v :: _) => v | _ => "" end) = "text/html").
  { intros resp. unfold worker.Eligible. rewrite Header_Get_content_type.
    destruct (decide (strings_ToLower _ ≠ "text/html")) as [|Heq]; [done|].
    intros _. by apply dec_stable in Heq. }
  split; [|split].
  - intros resp Hel. apply Hget in Hel.
    destruct (worker.Header resp !! "Content-Type") as [[|v rest]|]; try done.
    exists v, rest. split; [done|]. split; [done|]. by apply Hlen.
  - intros resp Hnone. apply not_true_is_false. intros Hel. apply Hget in Hel.
    destruct Hnone as [Hn|Hn]; rewrite Hn in Hel; vm_compute in Hel; done.
  - intros resp v rest Hv Ha Hne. apply not_true_is_false. intros Hel.
    apply Hget in Hel. rewrite Hv in Hel. by apply Hne, Hlen.
Qed.

End EligibleHeader.

(** ** HTML worker: the links in document order *)
Section DocumentOrder.
Context `{Unicode}.




End DocumentOrder.
